(** * extlinks.programs.views: the program detail view

    A shallow embedding of [ProgramDetailView] (src/extlinks/programs/views.py)
    and of the part of the Django ORM it drives, followed by the properties
    of the filter builder, the chart series, the statistics table and the
    top-5 tables. *)

From stdpp Require Import base option list strings gmap sorting pretty.
From Stdlib Require Import ZArith Lia.

Local Open Scope Z_scope.

(** ** Python results: a value or a raised exception *)

Inductive exn : Type :=
  | DoesNotExist        (* LinkAggregate.DoesNotExist *)
  | UnboundLocalError   (* a local variable read before assignment *)
  | TypeError.          (* Q._combine on an operand that is not a Q *)

Global Instance exn_eq_dec : EqDecision exn.
Proof. solve_decision. Defined.

Inductive result (A : Type) : Type :=
  | Ok (a : A)
  | Raise (e : exn).
Arguments Ok {A} a.
Arguments Raise {A} e.

Global Instance result_ret : MRet result := λ A a, Ok a.
Global Instance result_bind : MBind result := λ A B f m,
  match m with
  | Ok a => f a
  | Raise e => Raise e
  end.

Global Instance result_fmap : FMap result := λ A B f m,
  match m with
  | Ok a => Ok (f a)
  | Raise e => Raise e
  end.

(** [try m except e: h] *)
Definition try_except {A} (m : result A) (e : exn) (h : result A) : result A :=
  match m with
  | Ok a => Ok a
  | Raise e' => if decide (e' = e) then h else Raise e'
  end.

(** A local variable of a Python function: unbound until first assigned. *)
Inductive local (A : Type) : Type :=
  | Unbound
  | Bound (a : A).
Arguments Unbound {A}.
Arguments Bound {A} a.

Definition read {A} (x : local A) : result A :=
  match x with
  | Bound a => Ok a
  | Unbound => Raise UnboundLocalError
  end.

(** ** datetime.date

    A date is its (year, month, day) triple; Python compares dates as it
    compares these triples. *)

Record date : Type := Date { d_year : Z; d_month : Z; d_day : Z }.

Global Instance date_eq_dec : EqDecision date.
Proof. solve_decision. Defined.

Definition date_cmp (a b : date) : comparison :=
  match d_year a ?= d_year b with
  | Eq =>
      match d_month a ?= d_month b with
      | Eq => d_day a ?= d_day b
      | c => c
      end
  | c => c
  end.

(** [a <= b] and [a >= b] on dates *)
Definition date_le (a b : date) : bool :=
  match date_cmp a b with Gt => false | _ => true end.
Definition date_ge (a b : date) : bool := date_le b a.
Definition date_lt (a b : date) : bool :=
  match date_cmp a b with Lt => true | _ => false end.

(** ** django.db.models.Q

    Every [Q] this view builds is a keyword lookup or the [&] of two
    such objects.  [Q._combine] with the AND connector squashes the
    children of both operands into one AND node, so a [Q] is the list of
    its lookups, all of which must hold. *)

Record Organisation : Type := { org_pk : Z; org_name : string }.

Global Instance Organisation_eq_dec : EqDecision Organisation.
Proof. solve_decision. Defined.

Inductive lookup_expr : Type :=
  | organisation__in (organisations : list Organisation)
  | full_date__gte (d : date)
  | full_date__lte (d : date).

Global Instance lookup_expr_eq_dec : EqDecision lookup_expr.
Proof. solve_decision. Defined.

Record Q : Type := Q_ { children : list lookup_expr }.

Global Instance Q_eq_dec : EqDecision Q.
Proof. solve_decision. Defined.

(** [bool(q)]: a node is truthy when it has children. *)
Definition Q_bool (q : Q) : bool :=
  match children q with [] => false | _ => true end.

(** [self & other]; [other] is whatever Python value the variable holds,
    [None] included. *)
Definition Q_and (self : Q) (other : option Q) : result Q :=
  match other with
  | None => Raise TypeError
  | Some o => Ok (Q_ (children self ++ children o))
  end.

(** Truthiness of a variable that holds [None] or a [Q]. *)
Definition truthy_Q (v : option Q) : bool :=
  match v with None => false | Some q => Q_bool q end.

Definition is_None {A} (v : option A) : bool :=
  match v with None => true | Some _ => false end.

(** ** The filter form's cleaned data

    A dictionary from field names to values; a date field holds a date or
    [None].  Dates are always truthy, [None] is falsy. *)

Definition truthy_date (v : option date) : bool :=
  match v with None => false | Some _ => true end.

(** ** The aggregate tables *)

(** Modelled from the spec: the models of [extlinks.aggregates.models] are
    not part of the sources at hand; each row carries the fields the view
    reads.  [LinkAggregate]: a rollup row per organisation and day, with
    its date parts and the counts of links added and removed. *)
Record LinkAggregate : Type := {
  la_organisation : Organisation;
  la_full_date : date;
  year : Z;
  month : Z;
  la_total_links_added : Z;
  la_total_links_removed : Z;
}.

(** Modelled from the spec: [PageProjectAggregate], a rollup row per
    organisation, project and day. *)
Record PageProjectAggregate : Type := {
  ppa_organisation : Organisation;
  project_name : string;
  ppa_full_date : date;
  ppa_total_links_added : Z;
  ppa_total_links_removed : Z;
}.

(** Modelled from the spec: [UserAggregate], a rollup row per
    organisation, user and day. *)
Record UserAggregate : Type := {
  ua_organisation : Organisation;
  username : string;
  ua_full_date : date;
  ua_total_links_added : Z;
  ua_total_links_removed : Z;
}.

(** The fields the three aggregate models share; the view applies one and
    the same [Q] to all three. *)
Class Aggregate (A : Type) : Type := {
  organisation : A → Organisation;
  full_date : A → date;
  total_links_added : A → Z;
  total_links_removed : A → Z;
}.

Global Instance LinkAggregate_Aggregate : Aggregate LinkAggregate := {|
  organisation := la_organisation;
  full_date := la_full_date;
  total_links_added := la_total_links_added;
  total_links_removed := la_total_links_removed;
|}.

Global Instance PageProjectAggregate_Aggregate : Aggregate PageProjectAggregate := {|
  organisation := ppa_organisation;
  full_date := ppa_full_date;
  total_links_added := ppa_total_links_added;
  total_links_removed := ppa_total_links_removed;
|}.

Global Instance UserAggregate_Aggregate : Aggregate UserAggregate := {|
  organisation := ua_organisation;
  full_date := ua_full_date;
  total_links_added := ua_total_links_added;
  total_links_removed := ua_total_links_removed;
|}.

(** The database state the view reads: [Model.objects] of each table. *)
Record Database : Type := {
  LinkAggregate_objects : list LinkAggregate;
  PageProjectAggregate_objects : list PageProjectAggregate;
  UserAggregate_objects : list UserAggregate;
}.

(** ** Query sets *)

Module QuerySet.
Section queries.
Context {A : Type} `{Aggregate A}.

(** One lookup on one row.  [organisation__in] compares primary keys. *)
Definition lookup_holds (r : A) (l : lookup_expr) : bool :=
  match l with
  | organisation__in orgs =>
      bool_decide (org_pk (organisation r) ∈ org_pk <$> orgs)
  | full_date__gte d => date_ge (full_date r) d
  | full_date__lte d => date_le (full_date r) d
  end.

(** A row satisfies a [Q] when every lookup of the conjunction holds. *)
Definition matches (q : Q) (r : A) : bool :=
  forallb (lookup_holds r) (children q).

(** [objects.filter(q)] *)
Definition filter_ (q : Q) (rows : list A) : list A :=
  filter (λ r, matches q r = true) rows.

(** [.earliest("full_date")]: the row with the least date, the first of
    them in row order; [DoesNotExist] when there is no row. *)
Definition earliest (rows : list A) : result A :=
  match rows with
  | [] => Raise DoesNotExist
  | r :: rs =>
      Ok (foldl (λ m x, if date_lt (full_date x) (full_date m) then x else m)
                r rs)
  end.

(** SQL [SUM] of a column over the rows of one group, which is never
    empty. *)
Definition group_sum (f : A → Z) (rows : list A) : Z :=
  foldr (λ r acc, f r + acc) 0 rows.

(** [Sum(column)] in [.aggregate(...)]: NULL, hence [None], when no row
    is selected. *)
Definition Sum (f : A → Z) (rows : list A) : option Z :=
  match rows with
  | [] => None
  | _ => Some (group_sum f rows)
  end.

(** [Sum(a) - Sum(b)]: NULL as soon as one side is. *)
Definition Sum_sub (a b : option Z) : option Z :=
  x ← a; y ← b; Some (x - y).

(** [Count(column, distinct=True)] *)
Definition Count_distinct `{EqDecision K} (f : A → K) (rows : list A) : Z :=
  Z.of_nat (length (remove_dups (f <$> rows))).

(** [.values(columns)] followed by [.annotate(...)]: GROUP BY the
    columns, one group per distinct value, holding the rows that carry
    it.  The database fixes no order between groups; here they come in
    the order of the last row of each. *)
Definition values `{EqDecision K} (key : A → K) (rows : list A)
    : list (K * list A) :=
  (λ k, (k, filter (λ r, key r = k) rows)) <$> remove_dups (key <$> rows).
End queries.
End QuerySet.

(** A row of a totals table: the grouping columns and the three sums. *)
Record totals_row (K : Type) : Type := TotalsRow {
  group_key : K;
  links_added : Z;
  links_removed : Z;
  links_diff : Z;
}.
Arguments TotalsRow {K} _ _ _ _.
Arguments group_key {K} _.
Arguments links_added {K} _.
Arguments links_removed {K} _.
Arguments links_diff {K} _.

(** A row of the chart query. *)
Record net_change_row : Type := NetChangeRow {
  nc_month : Z;
  nc_year : Z;
  net_change : Z;
}.

(** [.order_by("-links_diff", "-links_added", "-links_removed")]: [a] may
    stand before [b]. *)
Definition ranks_before {K} (a b : totals_row K) : Prop :=
  links_diff b < links_diff a ∨
  (links_diff b = links_diff a ∧
   (links_added b < links_added a ∨
    (links_added b = links_added a ∧ links_removed b ≤ links_removed a))).

Global Instance ranks_before_dec {K} : RelDecision (@ranks_before K).
Proof. intros a b. unfold ranks_before. apply _. Defined.

Definition order_by {K} (rows : list (totals_row K)) : list (totals_row K) :=
  merge_sort ranks_before rows.

(** The template context: a dictionary from names to values. *)
Inductive value : Type :=
  | VNone
  | VInt (n : Z)
  | VStr (s : string)
  | VStrList (l : list string)
  | VIntList (l : list Z)
  | VOrganisations (l : list Organisation)
  | VForm (is_valid : bool) (cleaned_data : gmap string (option date))
  | VOrganisationTotals (l : list (totals_row (Z * string)))
  | VNameTotals (l : list (totals_row string)).

Definition py_int (n : option Z) : value :=
  match n with None => VNone | Some n => VInt n end.

Module ProgramDetailView.

(** [_build_queryset_filters(self, form_data, organisations)] *)
Definition _build_queryset_filters
    (form_data : gmap string (option date))
    (organisations : list Organisation) : result Q :=
  let start_date_filter : option Q := None in
  let end_date_filter : option Q := None in
  let organisation_filter := Q_ [organisation__in organisations] in
  let '(start_date, start_date_filter) :=
    match form_data !! "start_date" return local (option date) * option Q with
    | Some v =>
        (Bound v,
         match v with
         | Some d => Some (Q_ [full_date__gte d])
         | None => start_date_filter
         end)
    | None => (Unbound, start_date_filter)
    end in
  let '(end_date, end_date_filter) :=
    match form_data !! "end_date" return local (option date) * option Q with
    | Some v =>
        (Bound v,
         match v with
         | Some d => Some (Q_ [full_date__lte d])
         | None => end_date_filter
         end)
    | None => (Unbound, end_date_filter)
    end in
  if truthy_Q start_date_filter && truthy_Q end_date_filter then
    sd ← read start_date;
    ed ← read end_date;
    match sd, ed with
    | Some s, Some e =>
        if date_ge s e then Ok organisation_filter
        else
          q ← Q_and organisation_filter start_date_filter;
          Q_and q end_date_filter
    | _, _ => Raise TypeError
    end
  else if truthy_Q start_date_filter && is_None end_date_filter then
    Q_and organisation_filter start_date_filter
  else
    c ← (if is_None start_date_filter
         then truthy_date <$> read end_date
         else Ok false);
    if (c : bool) then Q_and organisation_filter end_date_filter
    else Ok organisation_filter.

(** [_fill_chart_context(self, organisations, context, queryset_filter)] *)
Definition _fill_chart_context
    (organisations : list Organisation)
    (context : gmap string value)
    (queryset_filter : Q)
    (db : Database) : result (gmap string value) :=
  earliest_link_date ←
    try_except
      (full_date <$>
         QuerySet.earliest
           (QuerySet.filter_ queryset_filter (LinkAggregate_objects db)))
      DoesNotExist
      (full_date <$>
         QuerySet.earliest
           (QuerySet.filter_ (Q_ [organisation__in organisations])
              (LinkAggregate_objects db)));
  q ← Q_and queryset_filter (Some (Q_ [full_date__gte earliest_link_date]));
  let links_aggregated_date :=
    (λ g : (Z * Z) * list LinkAggregate,
       {| nc_month := g.1.1;
          nc_year := g.1.2;
          net_change :=
            QuerySet.group_sum total_links_added g.2
            - QuerySet.group_sum total_links_removed g.2 |})
    <$> QuerySet.values (λ r, (month r, year r))
          (QuerySet.filter_ q (LinkAggregate_objects db)) in
  let '(eventstream_dates, eventstream_net_change) :=
    foldl
      (λ '(eventstream_dates, eventstream_net_change) link,
         let date_combined :=
           pretty (nc_year link) +:+ "-" +:+ pretty (nc_month link) in
         (eventstream_dates ++ [date_combined],
          eventstream_net_change ++ [net_change link]))
      ([], []) links_aggregated_date in
  let context := <["eventstream_dates" := VStrList eventstream_dates]> context in
  let context :=
    <["eventstream_net_change" := VIntList eventstream_net_change]> context in
  Ok context.

(** [_fill_statistics_table_context(self, context, queryset_filter)] *)
Definition _fill_statistics_table_context
    (context : gmap string value)
    (queryset_filter : Q)
    (db : Database) : gmap string value :=
  let rows := QuerySet.filter_ queryset_filter (LinkAggregate_objects db) in
  let links_added := QuerySet.Sum total_links_added rows in
  let links_removed := QuerySet.Sum total_links_removed rows in
  let links_diff :=
    QuerySet.Sum_sub (QuerySet.Sum total_links_added rows)
                     (QuerySet.Sum total_links_removed rows) in
  let context := <["total_added" := py_int links_added]> context in
  let context := <["total_removed" := py_int links_removed]> context in
  let context := <["total_diff" := py_int links_diff]> context in
  let editor_count :=
    QuerySet.Count_distinct username
      (QuerySet.filter_ queryset_filter (UserAggregate_objects db)) in
  let context := <["total_editors" := VInt editor_count]> context in
  let project_count :=
    QuerySet.Count_distinct project_name
      (QuerySet.filter_ queryset_filter (PageProjectAggregate_objects db)) in
  let context := <["total_projects" := VInt project_count]> context in
  context.

(** [.values(key).annotate(links_added=Sum(...), links_removed=Sum(...),
    links_diff=Sum(...) - Sum(...))], as the three totals tables have it. *)
Definition annotate_totals {A K} `{Aggregate A} `{EqDecision K}
    (key : A → K) (rows : list A) : list (totals_row K) :=
  (λ g : K * list A,
     {| group_key := g.1;
        links_added := QuerySet.group_sum total_links_added g.2;
        links_removed := QuerySet.group_sum total_links_removed g.2;
        links_diff :=
          QuerySet.group_sum total_links_added g.2
          - QuerySet.group_sum total_links_removed g.2 |})
  <$> QuerySet.values key rows.

(** [_fill_totals_tables(self, context, queryset_filter)] *)
Definition _fill_totals_tables
    (context : gmap string value)
    (queryset_filter : Q)
    (db : Database) : gmap string value :=
  let context :=
    <["top_organisations" :=
        VOrganisationTotals
          (take 5
             (order_by
                (annotate_totals
                   (λ r, (org_pk (organisation r), org_name (organisation r)))
                   (QuerySet.filter_ queryset_filter
                      (LinkAggregate_objects db)))))]> context in
  let context :=
    <["top_projects" :=
        VNameTotals
          (take 5
             (order_by
                (annotate_totals project_name
                   (QuerySet.filter_ queryset_filter
                      (PageProjectAggregate_objects db)))))]> context in
  let context :=
    <["top_users" :=
        VNameTotals
          (take 5
             (order_by
                (annotate_totals username
                   (QuerySet.filter_ queryset_filter
                      (UserAggregate_objects db)))))]> context in
  context.

(** [if form_data:] on a value that is [None] or a dictionary *)
Definition truthy_dict (form_data : option (gmap string (option date))) : bool :=
  match form_data with
  | None => false
  | Some m => bool_decide (m ≠ ∅)
  end.

(** [_build_context_dictionary(self, organisations, context, form_data)] *)
Definition _build_context_dictionary
    (organisations : list Organisation)
    (context : gmap string value)
    (form_data : option (gmap string (option date)))
    (db : Database) : result (gmap string value) :=
  queryset_filter ←
    (if truthy_dict form_data
     then _build_queryset_filters (default ∅ form_data) organisations
     else Ok (Q_ [organisation__in organisations]));
  context ← _fill_chart_context organisations context queryset_filter db;
  let context := _fill_statistics_table_context context queryset_filter db in
  let context := _fill_totals_tables context queryset_filter db in
  Ok context.

(** [get_context_data(self, **kwargs)]: [context] is what the parent class
    hands over, [organisation_set] the organisations of the program shown,
    [form] the filter form bound to the request (valid or not, with its
    cleaned data) and [QUERY_STRING] the request's raw query string. *)
Definition get_context_data
    (context : gmap string value)
    (organisation_set : list Organisation)
    (form_is_valid : bool)
    (cleaned_data : gmap string (option date))
    (QUERY_STRING : string)
    (db : Database) : result (gmap string value) :=
  let this_program_organisations := organisation_set in
  let context :=
    <["organisations" := VOrganisations this_program_organisations]> context in
  let context := <["form" := VForm form_is_valid cleaned_data]> context in
  let form_data := if form_is_valid then Some cleaned_data else None in
  context ←
    _build_context_dictionary this_program_organisations context form_data db;
  let context := <["query_string" := VStr QUERY_STRING]> context in
  Ok context.

End ProgramDetailView.

(** * Vocabulary of the properties *)

Import ProgramDetailView.

(** [a <= b] on dates, spelled out on the three components. *)
Definition date_before (a b : date) : Prop :=
  d_year a < d_year b ∨
  (d_year a = d_year b ∧
   (d_month a < d_month b ∨ (d_month a = d_month b ∧ d_day a ≤ d_day b))).

(** The predicate every query starts from. *)
Definition organisation_only (organisations : list Organisation) : Q :=
  Q_ [organisation__in organisations].

(** [d] is the least date among [rows]: some row carries it and no row is
    dated before it. *)
Definition is_earliest_date `{Aggregate A} (d : date) (rows : list A) : Prop :=
  Exists (λ r, full_date r = d) rows ∧
  Forall (λ r, date_le d (full_date r) = true) rows.

Global Instance is_earliest_date_dec `{Aggregate A} (d : date) (rows : list A) :
  Decision (is_earliest_date d rows).
Proof. unfold is_earliest_date. apply _. Defined.

(** The label of one period, as the f-string formats it. *)
Definition date_combined (y m : Z) : string := pretty y +:+ "-" +:+ pretty m.

(** The rows the chart query selects: those matching the predicate and
    dated [earliest_date] or later. *)
Definition chart_selection (q : Q) (earliest_date : date)
    (links : list LinkAggregate) : list LinkAggregate :=
  QuerySet.filter_ (Q_ (children q ++ [full_date__gte earliest_date])) links.

(** The chart query: one triple (month, year, net change) per group. *)
Definition chart_groups (q : Q) (earliest_date : date)
    (links : list LinkAggregate) : list (Z * Z * Z) :=
  (λ g : (Z * Z) * list LinkAggregate,
     (g.1, QuerySet.group_sum total_links_added g.2
           - QuerySet.group_sum total_links_removed g.2))
  <$> QuerySet.values (λ r, (month r, year r))
        (chart_selection q earliest_date links).

(** The value the [try]/[except] statement assigns to
    [earliest_link_date]. *)
Definition earliest_link_date_lookup (organisations : list Organisation)
    (q : Q) (db : Database) : result date :=
  try_except
    (full_date <$>
       QuerySet.earliest (QuerySet.filter_ q (LinkAggregate_objects db)))
    DoesNotExist
    (full_date <$>
       QuerySet.earliest
         (QuerySet.filter_ (Q_ [organisation__in organisations])
            (LinkAggregate_objects db))).

(** The sum of a list of numbers. *)
Definition sum_Z (l : list Z) : Z := foldr Z.add 0 l.

(** What SQL [SUM] yields over a selection: NULL when it is empty. *)
Definition sql_sum (l : list Z) : value :=
  match l with [] => VNone | _ => VInt (sum_Z l) end.

(** [groups] is the outcome of grouping [rows] by [key] and summing:
    one entry per key that occurs, holding the sums over the rows that
    carry the key. *)
Definition grouped_totals `{Aggregate A} {K} `{EqDecision K}
    (key : A → K) (rows : list A) (groups : list (totals_row K)) : Prop :=
  NoDup (group_key <$> groups) ∧
  ∀ g, g ∈ groups ↔
       ∃ members,
         members = filter (λ r, key r = group_key g) rows ∧
         members ≠ [] ∧
         links_added g = sum_Z (total_links_added <$> members) ∧
         links_removed g = sum_Z (total_links_removed <$> members) ∧
         links_diff g = sum_Z (total_links_added <$> members)
                        - sum_Z (total_links_removed <$> members).

(** [top] is [groups] put in ranking order and cut to five. *)
Definition top5_of {K} (groups top : list (totals_row K)) : Prop :=
  ∃ ranking,
    ranking ≡ₚ groups ∧
    StronglySorted ranks_before ranking ∧
    top = take 5 ranking.

(** No form data at all, or the cleaned data of a form submitted without
    dates. *)
Definition no_date_filter (form_data : option (gmap string (option date)))
    : Prop :=
  form_data = None ∨
  ∃ fd, form_data = Some fd ∧
        fd !! "start_date" = Some None ∧ fd !! "end_date" = Some None.

(** ** Programs and their organisations *)

(** Modelled from the spec: the [Program] model of [extlinks.programs.models]
    is not part of the sources at hand; a program has a key and a name. *)
Record Program : Type := { program_pk : Z; program_name : string }.

(** Modelled from the spec: the relation between organisations and
    programs, one row per organisation with the program it belongs to. *)
Record OrganisationRow : Type := {
  row_organisation : Organisation;
  row_program : Z;
}.

(** [program.organisation_set.all()] *)
Definition organisation_set (p : Program) (organisations : list OrganisationRow)
    : list Organisation :=
  row_organisation
    <$> filter (λ o, row_program o = program_pk p) organisations.

Module ProgramListView.

(** [get_queryset(self, **kwargs)]: every program, annotated with
    [organisation_count=Count("organisation")].  The join is a left outer
    join: a program without organisation is kept, with count 0.  The
    query has no [order_by], so the database fixes no order between the
    rows; here they come in table order, and nothing stated about the
    list depends on it. *)
Definition get_queryset
    (programs : list Program) (organisations : list OrganisationRow)
    : list (Program * Z) :=
  (λ p, (p, Z.of_nat
              (length (filter (λ o, row_program o = program_pk p)
                         organisations))))
  <$> programs.

End ProgramListView.

(** The ten entries [_build_context_dictionary] writes. *)
Definition statistics_keys : list string :=
  ["eventstream_dates"; "eventstream_net_change";
   "total_added"; "total_removed"; "total_diff";
   "total_editors"; "total_projects";
   "top_organisations"; "top_projects"; "top_users"].

(** The predicate [_build_context_dictionary] resolves from the form
    data. *)
Definition resolved_filter (organisations : list Organisation)
    (form_data : option (gmap string (option date))) : result Q :=
  if truthy_dict form_data
  then _build_queryset_filters (default ∅ form_data) organisations
  else Ok (Q_ [organisation__in organisations]).

(** Every row of [top] may stand before every group that was cut off. *)
Definition keeps_best {K} (groups top : list (totals_row K)) : Prop :=
  ∀ g t, g ∈ groups → g ∉ top → t ∈ top → ranks_before t g.

(** The grouping columns of the organisations table. *)
Definition organisation_key (r : LinkAggregate) : Z * string :=
  (org_pk (organisation r), org_name (organisation r)).

(** ** Sample data *)

Module Sample.

Definition org_A : Organisation := {| org_pk := 1; org_name := "A" |}.
Definition org_B : Organisation := {| org_pk := 2; org_name := "B" |}.

Definition jan_1 : date := Date 2024 1 1.
Definition feb_1 : date := Date 2024 2 1.

Definition links : list LinkAggregate := [
  {| la_organisation := org_A; la_full_date := jan_1; year := 2024; month := 1;
     la_total_links_added := 100; la_total_links_removed := 10 |};
  {| la_organisation := org_B; la_full_date := feb_1; year := 2024; month := 2;
     la_total_links_added := 50; la_total_links_removed := 60 |}
].

Definition db : Database := {|
  LinkAggregate_objects := links;
  PageProjectAggregate_objects := [
    {| ppa_organisation := org_A; project_name := "en.wikipedia.org";
       ppa_full_date := jan_1;
       ppa_total_links_added := 100; ppa_total_links_removed := 10 |}
  ];
  UserAggregate_objects := [
    {| ua_organisation := org_A; username := "Alice"; ua_full_date := jan_1;
       ua_total_links_added := 100; ua_total_links_removed := 10 |}
  ];
|}.

(** [?start_date=2024-02-01&end_date=2024-01-01] *)
Definition inverted_form : gmap string (option date) :=
  {[ "start_date" := Some feb_1; "end_date" := Some jan_1 ]}.

(** [?start_date=2024-01-01&end_date=2024-02-01] *)
Definition range_form : gmap string (option date) :=
  {[ "start_date" := Some jan_1; "end_date" := Some feb_1 ]}.

(** [?start_date=2024-01-01] *)
Definition start_only_form : gmap string (option date) :=
  {[ "start_date" := Some jan_1; "end_date" := None ]}.

(** [?end_date=2024-02-01] *)
Definition end_only_form : gmap string (option date) :=
  {[ "start_date" := None; "end_date" := Some feb_1 ]}.

(** A lower bound later than every row of [links]. *)
Definition after_all : Q :=
  Q_ [organisation__in [org_A; org_B]; full_date__gte (Date 2025 1 1)].

End Sample.

Module SampleList.

Definition with_organisations : Program :=
  {| program_pk := 1; program_name := "Partners" |}.
Definition without_organisation : Program :=
  {| program_pk := 2; program_name := "Pilot" |}.

Definition programs : list Program :=
  [with_organisations; without_organisation].

Definition organisations : list OrganisationRow := [
  {| row_organisation := Sample.org_A; row_program := 1 |};
  {| row_organisation := Sample.org_B; row_program := 1 |}
].

(** [?start_date=2024-01-01&end_date=2024-01-31] *)
Definition january_form : gmap string (option date) :=
  {[ "start_date" := Some (Date 2024 1 1); "end_date" := Some (Date 2024 1 31) ]}.

End SampleList.

(** * Properties *)

(** ** The order on dates *)

Section date_order.
Implicit Types a b c : date.

Lemma date_le_spec a b : date_le a b = true ↔ date_before a b.
Proof.
  unfold date_le, date_cmp, date_before.
  destruct (Z.compare_spec (d_year a) (d_year b));
    destruct (Z.compare_spec (d_month a) (d_month b));
    destruct (Z.compare_spec (d_day a) (d_day b));
    split; intros; try done; lia.
Qed.

Lemma date_lt_spec a b : date_lt a b = true ↔ ¬ date_before b a.
Proof.
  unfold date_lt, date_cmp, date_before.
  destruct (Z.compare_spec (d_year a) (d_year b));
    destruct (Z.compare_spec (d_month a) (d_month b));
    destruct (Z.compare_spec (d_day a) (d_day b));
    split; intros; try done; lia.
Qed.

Lemma date_le_refl a : date_le a a = true.
Proof. apply date_le_spec. unfold date_before. lia. Qed.

Lemma date_le_trans a b c :
  date_le a b = true → date_le b c = true → date_le a c = true.
Proof. rewrite !date_le_spec. unfold date_before. lia. Qed.

Lemma date_le_total a b : date_le a b = true ∨ date_le b a = true.
Proof. rewrite !date_le_spec. unfold date_before. lia. Qed.

Lemma date_le_antisym a b :
  date_le a b = true → date_le b a = true → a = b.
Proof.
  rewrite !date_le_spec. unfold date_before.
  destruct a, b; simpl. intros. f_equal; lia.
Qed.

Lemma date_lt_not_ge a b : date_lt a b = true ↔ date_ge a b = false.
Proof.
  unfold date_ge. rewrite date_lt_spec, <- date_le_spec.
  destruct (date_le b a); naive_solver.
Qed.

Lemma date_lt_false a b : date_lt a b = false ↔ date_le b a = true.
Proof.
  rewrite <- not_true_iff_false, date_lt_not_ge. unfold date_ge.
  destruct (date_le b a); naive_solver.
Qed.

Lemma date_lt_le a b : date_lt a b = true → date_le a b = true.
Proof. rewrite date_lt_spec, date_le_spec. unfold date_before. lia. Qed.
End date_order.

(** ** The filter builder *)

Section build_queryset_filters.
Implicit Types form_data : gmap string (option date).
Implicit Types organisations : list Organisation.

(** The builder returns a predicate as soon as the [end_date] key is in
    the dictionary or the start date is a date. *)
Lemma build_queryset_filters_returns form_data organisations :
  is_Some (form_data !! "end_date") ∨
  (∃ sd, form_data !! "start_date" = Some (Some sd)) →
  ∃ q, _build_queryset_filters form_data organisations = Ok q.
Proof.
  unfold _build_queryset_filters.
  intros [[ve He] | [sd Hs]].
  - rewrite He.
    destruct (form_data !! "start_date") as [[sd|]|], ve as [ed|];
      simpl; try destruct (date_ge sd ed); eauto.
  - rewrite Hs.
    destruct (form_data !! "end_date") as [[ed|]|];
      simpl; try destruct (date_ge sd ed); eauto.
Qed.

(** Without the [end_date] key and without a start date, the last test
    reads a local that was never assigned. *)
Lemma build_queryset_filters_unbound form_data organisations :
  form_data !! "end_date" = None →
  (∀ sd, form_data !! "start_date" ≠ Some (Some sd)) →
  _build_queryset_filters form_data organisations = Raise UnboundLocalError.
Proof.
  unfold _build_queryset_filters. intros -> Hs.
  destruct (form_data !! "start_date") as [[sd|]|]; simpl; try done.
  by destruct (Hs sd).
Qed.

Lemma matches_organisation_only `{Aggregate A} organisations (r : A) :
  QuerySet.matches (organisation_only organisations) r = true ↔
  org_pk (organisation r) ∈ org_pk <$> organisations.
Proof.
  unfold QuerySet.matches; simpl.
  rewrite andb_true_r, bool_decide_eq_true. done.
Qed.

Lemma matches_app `{Aggregate A} (l1 l2 : list lookup_expr) (r : A) :
  QuerySet.matches (Q_ (l1 ++ l2)) r =
  QuerySet.matches (Q_ l1) r && QuerySet.matches (Q_ l2) r.
Proof. unfold QuerySet.matches; simpl. apply forallb_app. Qed.

Lemma elem_of_filter_ `{Aggregate A} (q : Q) (rows : list A) (r : A) :
  r ∈ QuerySet.filter_ q rows ↔ QuerySet.matches q r = true ∧ r ∈ rows.
Proof.
  unfold QuerySet.filter_.
  apply (list_elem_of_filter (λ r, QuerySet.matches q r = true)).
Qed.
End build_queryset_filters.

Section filter_claims.
Implicit Types form_data : gmap string (option date).
Implicit Types organisations : list Organisation.

(** C3 (the code departs from the claim): on the dictionary
    [{"start_date": None}], which has no [end_date] key, the builder does
    not return a predicate: the test [start_date_filter is None and
    end_date] reads the local [end_date] before any assignment and
    [UnboundLocalError] is raised. *)
Theorem build_queryset_filters_raises_without_end_date organisations :
  _build_queryset_filters {["start_date" := None]} organisations
  = Raise UnboundLocalError.
Proof.
  apply build_queryset_filters_unbound.
  - by rewrite lookup_singleton_ne.
  - intros sd. by rewrite lookup_singleton_eq.
Qed.

(** C6: when both dates are given and [start_date < end_date], the
    builder returns the organisation predicate joined with
    [full_date >= start_date] and [full_date <= end_date]; a row
    satisfies it exactly when its organisation is one of the program's
    and its date lies in the closed range, and filtering keeps exactly
    those rows. *)
Theorem build_queryset_filters_inclusive_range
    form_data organisations (start_date end_date : date) :
  form_data !! "start_date" = Some (Some start_date) →
  form_data !! "end_date" = Some (Some end_date) →
  date_lt start_date end_date = true →
  let q := Q_ [organisation__in organisations;
               full_date__gte start_date;
               full_date__lte end_date] in
  _build_queryset_filters form_data organisations = Ok q ∧
  (Q_and (organisation_only organisations)
         (Some (Q_ [full_date__gte start_date]))
     ≫= λ q', Q_and q' (Some (Q_ [full_date__lte end_date]))) = Ok q ∧
  ∀ (A : Type) (HA : Aggregate A) (rows : list A) (r : A),
    r ∈ QuerySet.filter_ q rows ↔
    r ∈ rows ∧
    org_pk (organisation r) ∈ org_pk <$> organisations ∧
    date_le start_date (full_date r) = true ∧
    date_le (full_date r) end_date = true.
Proof.
  intros Hs He Hlt q. split; [|split].
  - unfold _build_queryset_filters. rewrite Hs, He. simpl.
    apply date_lt_not_ge in Hlt. by rewrite Hlt.
  - done.
  - intros A ? rows r. rewrite elem_of_filter_.
    unfold q, QuerySet.matches, date_ge; simpl.
    rewrite !andb_true_iff, bool_decide_eq_true. tauto.
Qed.

(** C7: with a start date and no end date (key absent or value [None])
    the builder returns the organisation predicate joined with
    [full_date >= start_date]; with an end date and no start date it
    returns the organisation predicate joined with
    [full_date <= end_date]. *)
Theorem build_queryset_filters_single_bound form_data organisations (d : date) :
  (form_data !! "start_date" = Some (Some d) →
   form_data !! "end_date" = None ∨ form_data !! "end_date" = Some None →
   _build_queryset_filters form_data organisations
   = Ok (Q_ [organisation__in organisations; full_date__gte d])) ∧
  (form_data !! "end_date" = Some (Some d) →
   form_data !! "start_date" = None ∨ form_data !! "start_date" = Some None →
   _build_queryset_filters form_data organisations
   = Ok (Q_ [organisation__in organisations; full_date__lte d])).
Proof.
  unfold _build_queryset_filters.
  split; intros -> [-> | ->]; reflexivity.
Qed.

(** Both dates given and [start_date >= end_date]: only the organisation
    predicate is returned. *)
Lemma build_queryset_filters_inverted
    form_data organisations (start_date end_date : date) :
  form_data !! "start_date" = Some (Some start_date) →
  form_data !! "end_date" = Some (Some end_date) →
  date_ge start_date end_date = true →
  _build_queryset_filters form_data organisations
  = Ok (organisation_only organisations).
Proof.
  intros Hs He Hge. unfold _build_queryset_filters.
  rewrite Hs, He. simpl. by rewrite Hge.
Qed.

(** Neither date given, both keys in the dictionary (the cleaned data of
    a form submitted without dates): only the organisation predicate. *)
Lemma build_queryset_filters_no_dates form_data organisations :
  form_data !! "end_date" = Some None →
  form_data !! "start_date" = None ∨ form_data !! "start_date" = Some None →
  _build_queryset_filters form_data organisations
  = Ok (organisation_only organisations).
Proof.
  unfold _build_queryset_filters. intros -> [-> | ->]; reflexivity.
Qed.

Lemma truthy_dict_lookup form_data k v :
  form_data !! k = Some v → truthy_dict (Some form_data) = true.
Proof.
  intros Hk. unfold truthy_dict. apply bool_decide_eq_true.
  intros ->. by rewrite lookup_empty in Hk.
Qed.

(** C1: when both dates are given and [start_date >= end_date], the
    builder returns exactly [Q(organisation__in=organisations)], and the
    context built from the form data (chart series, summary totals,
    top-5 tables) is the context built with no form data at all, for
    every database state and incoming context. *)
Theorem inverted_range_is_no_filter
    form_data organisations (start_date end_date : date) :
  form_data !! "start_date" = Some (Some start_date) →
  form_data !! "end_date" = Some (Some end_date) →
  date_ge start_date end_date = true →
  _build_queryset_filters form_data organisations
  = Ok (Q_ [organisation__in organisations]) ∧
  ∀ context db,
    _build_context_dictionary organisations context (Some form_data) db
    = _build_context_dictionary organisations context None db.
Proof.
  intros Hs He Hge.
  pose proof (build_queryset_filters_inverted _ organisations _ _ Hs He Hge)
    as Hq.
  split; [exact Hq|]. intros context db.
  unfold _build_context_dictionary.
  rewrite (truthy_dict_lookup _ _ _ Hs). simpl. by rewrite Hq.
Qed.
End filter_claims.

(** ** Query sets *)

Section queryset_facts.
Context {A : Type} `{Aggregate A}.
Implicit Types rows : list A.

Lemma is_earliest_date_alt d rows :
  is_earliest_date d rows ↔
  (∃ r, r ∈ rows ∧ full_date r = d) ∧
  ∀ r, r ∈ rows → date_le d (full_date r) = true.
Proof. unfold is_earliest_date. by rewrite Exists_exists, Forall_forall. Qed.

Lemma is_earliest_date_unique d1 d2 rows :
  is_earliest_date d1 rows → is_earliest_date d2 rows → d1 = d2.
Proof.
  rewrite !is_earliest_date_alt.
  intros [(r1 & Hr1 & <-) Hmin1] [(r2 & Hr2 & <-) Hmin2].
  apply date_le_antisym; auto.
Qed.

Lemma earliest_fold_least (r : A) (rs : list A) :
  let m := foldl (λ m x, if date_lt (full_date x) (full_date m) then x else m)
                 r rs in
  m ∈ r :: rs ∧
  ∀ x, x ∈ r :: rs → date_le (full_date m) (full_date x) = true.
Proof.
  revert r. induction rs as [|x rs IH]; intros r; simpl.
  - split; [left|]. intros x Hx. apply list_elem_of_singleton in Hx as ->.
    apply date_le_refl.
  - destruct (IH (if date_lt (full_date x) (full_date r) then x else r))
      as [Hin Hle].
    split.
    + apply elem_of_cons in Hin as [-> | Hin].
      * destruct (date_lt _ _); [right; left | left].
      * do 2 right. done.
    + intros y Hy.
      assert (date_le
                (full_date (if date_lt (full_date x) (full_date r)
                            then x else r))
                (full_date y) = true ∨ y ∈ rs) as [Hy' | Hy'].
      { apply elem_of_cons in Hy as [-> | Hy].
        - left. destruct (date_lt _ _) eqn:E.
          + by apply date_lt_le.
          + apply date_le_refl.
        - apply elem_of_cons in Hy as [-> | Hy]; [left | by right].
          destruct (date_lt _ _) eqn:E.
          + apply date_le_refl.
          + by apply date_lt_false. }
      * eapply date_le_trans; [|exact Hy']. apply Hle. left.
      * apply Hle. by right.
Qed.

Lemma earliest_nil : QuerySet.earliest (@nil A) = Raise DoesNotExist.
Proof. done. Qed.

(** On a non-empty selection [earliest] returns a row of the selection
    whose date is the least. *)
Lemma earliest_Ok rows :
  rows ≠ [] →
  ∃ m, QuerySet.earliest rows = Ok m ∧
       is_earliest_date (full_date m) rows.
Proof.
  destruct rows as [|r rs]; [done|]. intros _.
  destruct (earliest_fold_least r rs) as [Hin Hle].
  eexists. split; [reflexivity|].
  apply is_earliest_date_alt. split; eauto.
Qed.

Lemma earliest_full_date d rows :
  is_earliest_date d rows →
  full_date <$> QuerySet.earliest rows = Ok d.
Proof.
  intros Hd.
  destruct (earliest_Ok rows) as (m & -> & Hm).
  { apply is_earliest_date_alt in Hd as [(r & Hr & _) _].
    intros ->. by apply elem_of_nil in Hr. }
  simpl. f_equal. eapply is_earliest_date_unique; eauto.
Qed.

(** Groups: one per distinct key, each holding all rows with the key. *)
Lemma elem_of_values `{EqDecision K} (key : A → K) rows k g :
  (k, g) ∈ QuerySet.values key rows ↔
  k ∈ key <$> rows ∧ g = filter (λ r, key r = k) rows.
Proof.
  unfold QuerySet.values. rewrite list_elem_of_fmap. split.
  - intros (k' & [= -> ->] & Hk). rewrite elem_of_remove_dups in Hk. done.
  - intros [Hk ->]. exists k. split; [done|]. by rewrite elem_of_remove_dups.
Qed.

Lemma values_keys `{EqDecision K} (key : A → K) rows :
  (QuerySet.values key rows).*1 = remove_dups (key <$> rows).
Proof.
  unfold QuerySet.values. rewrite <- list_fmap_compose.
  apply list_fmap_id.
Qed.

Lemma NoDup_values_keys `{EqDecision K} (key : A → K) rows :
  NoDup (QuerySet.values key rows).*1.
Proof. rewrite values_keys. apply NoDup_remove_dups. Qed.

Lemma values_group_nonempty `{EqDecision K} (key : A → K) rows k g :
  (k, g) ∈ QuerySet.values key rows → g ≠ [].
Proof.
  intros [Hk ->]%elem_of_values.
  apply list_elem_of_fmap in Hk as (r & -> & Hr).
  intros Hnil. eapply (filter_nil_not_elem_of (λ r', key r' = key r)); eauto.
Qed.

Lemma values_nil `{EqDecision K} (key : A → K) :
  QuerySet.values key (@nil A) = [].
Proof. done. Qed.

Lemma filter__and (q : Q) (l : list lookup_expr) rows :
  QuerySet.filter_ (Q_ (children q ++ l)) rows
  = filter (λ r, QuerySet.matches (Q_ l) r = true) (QuerySet.filter_ q rows).
Proof.
  unfold QuerySet.filter_. rewrite list_filter_filter.
  apply list_filter_iff. intros r.
  rewrite (matches_app (children q) l), andb_true_iff.
  destruct q; simpl. tauto.
Qed.
End queryset_facts.

(** SQL [SUM] over the rows of a group is the sum of the column's values. *)
Lemma group_sum_sum_Z `{Aggregate A} (f : A → Z) (rows : list A) :
  QuerySet.group_sum f rows = sum_Z (f <$> rows).
Proof. induction rows as [|r rows IH]; simpl; [done|]. by rewrite IH. Qed.

(** ** The chart series *)

Section chart.
Implicit Types organisations : list Organisation.
Implicit Types context : gmap string value.

(** The loop appends one label and one value per row of the query. *)
Lemma chart_loop (links : list net_change_row) (ds : list string) (ns : list Z) :
  foldl
    (λ '(eventstream_dates, eventstream_net_change) link,
       (eventstream_dates
          ++ [pretty (nc_year link) +:+ "-" +:+ pretty (nc_month link)],
        eventstream_net_change ++ [net_change link]))
    (ds, ns) links
  = (ds ++ ((λ link, date_combined (nc_year link) (nc_month link)) <$> links),
     ns ++ (net_change <$> links)).
Proof.
  revert ds ns. induction links as [|link links IH]; intros ds ns; simpl.
  - by rewrite !app_nil_r.
  - rewrite IH. by rewrite <- !app_assoc.
Qed.

(** Once the earliest date is found, the context receives the labels and
    the net changes of the chart query's groups, in the same order. *)
Lemma fill_chart_context_found organisations context q db d :
  try_except
    (full_date <$>
       QuerySet.earliest (QuerySet.filter_ q (LinkAggregate_objects db)))
    DoesNotExist
    (full_date <$>
       QuerySet.earliest
         (QuerySet.filter_ (Q_ [organisation__in organisations])
            (LinkAggregate_objects db)))
  = Ok d →
  _fill_chart_context organisations context q db
  = Ok (<["eventstream_net_change" :=
            VIntList ((chart_groups q d (LinkAggregate_objects db)).*2)]>
        (<["eventstream_dates" :=
             VStrList ((λ g : Z * Z * Z, date_combined g.1.2 g.1.1)
                       <$> chart_groups q d (LinkAggregate_objects db))]>
           context)).
Proof.
  intros Hd. unfold _fill_chart_context. rewrite Hd. simpl.
  rewrite chart_loop. simpl.
  unfold chart_groups, chart_selection.
  rewrite <- !list_fmap_compose. done.
Qed.

Lemma filter_nonempty {A} (P : A → Prop) `{∀ x, Decision (P x)} (l : list A) :
  filter P l ≠ [] ↔ ∃ x, x ∈ l ∧ P x.
Proof.
  split.
  - destruct (filter P l) as [|x l'] eqn:E; [done|]. intros _.
    assert (x ∈ filter P l) as Hx by (rewrite E; left).
    apply list_elem_of_filter in Hx. exists x. tauto.
  - intros (x & Hx & HP) Hnil.
    by apply (filter_nil_not_elem_of P l x).
Qed.

Lemma elem_of_chart_groups q d links (m y n : Z) :
  (m, y, n) ∈ chart_groups q d links ↔
  ∃ selected,
    selected =
      filter (λ r, QuerySet.matches q r = true ∧
                   date_le d (full_date r) = true ∧
                   month r = m ∧ year r = y) links ∧
    selected ≠ [] ∧
    n = QuerySet.group_sum total_links_added selected
        - QuerySet.group_sum total_links_removed selected.
Proof.
  assert (filter (λ r : LinkAggregate, (month r, year r) = (m, y))
            (chart_selection q d links)
          = filter (λ r, QuerySet.matches q r = true ∧
                         date_le d (full_date r) = true ∧
                         month r = m ∧ year r = y) links) as Hsel.
  { unfold chart_selection, QuerySet.filter_. rewrite list_filter_filter.
    apply list_filter_iff. intros r.
    rewrite (matches_app (children q) [full_date__gte d]), andb_true_iff.
    unfold QuerySet.matches at 2; simpl. unfold date_ge.
    rewrite andb_true_r. destruct q; simpl.
    split.
    - intros [[= <- <-] [? ?]]. done.
    - intros (? & ? & <- & <-). done. }
  unfold chart_groups. rewrite list_elem_of_fmap. split.
  - intros ([k g] & Heq & Hg). simpl in Heq.
    injection Heq as Hk Hn. subst k n.
    pose proof (values_group_nonempty _ _ _ _ Hg) as Hne.
    apply elem_of_values in Hg as [_ ->].
    rewrite Hsel in *. eauto.
  - intros (selected & -> & Hne & ->). rewrite <- Hsel in *.
    eexists ((m, y), _). split; [reflexivity|].
    apply elem_of_values. split; [|done].
    apply filter_nonempty in Hne as (r & Hr & Heq).
    apply list_elem_of_fmap. exists r. done.
Qed.

(** The same, with the net change written as a difference of sums of the
    two columns. *)
Lemma elem_of_chart_groups_sums q d links (m y n : Z) :
  (m, y, n) ∈ chart_groups q d links ↔
  ∃ selected,
    selected =
      filter (λ r, QuerySet.matches q r = true ∧
                   date_le d (full_date r) = true ∧
                   month r = m ∧ year r = y) links ∧
    selected ≠ [] ∧
    n = sum_Z (total_links_added <$> selected)
        - sum_Z (total_links_removed <$> selected).
Proof.
  rewrite elem_of_chart_groups. split.
  - intros (selected & Hsel & Hne & ->). exists selected.
    by rewrite !group_sum_sum_Z.
  - intros (selected & Hsel & Hne & ->). exists selected.
    by rewrite !group_sum_sum_Z.
Qed.

Lemma NoDup_chart_groups q d links : NoDup (chart_groups q d links).*1.
Proof.
  unfold chart_groups. rewrite <- list_fmap_compose.
  apply (NoDup_values_keys (A:=LinkAggregate)).
Qed.
End chart.

Section chart_claims.
Implicit Types organisations : list Organisation.
Implicit Types context : gmap string value.

Lemma earliest_link_date_filtered organisations q db d :
  is_earliest_date d (QuerySet.filter_ q (LinkAggregate_objects db)) →
  earliest_link_date_lookup organisations q db = Ok d.
Proof.
  intros Hd. unfold earliest_link_date_lookup.
  by rewrite (earliest_full_date d _ Hd).
Qed.

Lemma earliest_link_date_fallback organisations q db d :
  QuerySet.filter_ q (LinkAggregate_objects db) = [] →
  is_earliest_date d
    (QuerySet.filter_ (organisation_only organisations)
       (LinkAggregate_objects db)) →
  earliest_link_date_lookup organisations q db = Ok d.
Proof.
  intros Hnil Hd. unfold earliest_link_date_lookup.
  rewrite Hnil. simpl. apply (earliest_full_date d _ Hd).
Qed.

(** C4: when [earliest_date] is the least [full_date] among the
    LinkAggregate rows matching the predicate, or no row matches and it
    is the least over the organisation-only selection, the context
    receives two parallel sequences read off one list of groups: the
    labels "year-month" and the net changes.  There is one group per
    (month, year) carried by a row that matches the predicate and is
    dated [earliest_date] or later, and its net change is the sum of
    [total_links_added] minus the sum of [total_links_removed] over
    those rows. *)
Theorem fill_chart_context_series
    organisations context queryset_filter db (earliest_date : date) :
  is_earliest_date earliest_date
    (QuerySet.filter_ queryset_filter (LinkAggregate_objects db)) ∨
  (QuerySet.filter_ queryset_filter (LinkAggregate_objects db) = [] ∧
   is_earliest_date earliest_date
     (QuerySet.filter_ (organisation_only organisations)
        (LinkAggregate_objects db))) →
  ∃ groups : list (Z * Z * Z),
    _fill_chart_context organisations context queryset_filter db
    = Ok (<["eventstream_net_change" := VIntList (groups.*2)]>
          (<["eventstream_dates" :=
               VStrList ((λ g : Z * Z * Z,
                            pretty g.1.2 +:+ "-" +:+ pretty g.1.1)
                         <$> groups)]> context)) ∧
    NoDup (groups.*1) ∧
    ∀ m y n : Z,
      (m, y, n) ∈ groups ↔
      ∃ selected,
        selected =
          filter (λ r, QuerySet.matches queryset_filter r = true ∧
                       date_le earliest_date (full_date r) = true ∧
                       month r = m ∧ year r = y)
                 (LinkAggregate_objects db) ∧
        selected ≠ [] ∧
        n = sum_Z (total_links_added <$> selected)
            - sum_Z (total_links_removed <$> selected).
Proof.
  intros Hd.
  assert (earliest_link_date_lookup organisations queryset_filter db
          = Ok earliest_date) as Hlookup.
  { destruct Hd as [Hd | [Hnil Hd]].
    - by apply earliest_link_date_filtered.
    - by apply earliest_link_date_fallback. }
  exists (chart_groups queryset_filter earliest_date (LinkAggregate_objects db)).
  split; [|split].
  - by apply fill_chart_context_found.
  - apply NoDup_chart_groups.
  - intros m y n. apply elem_of_chart_groups_sums.
Qed.

(** C10: when the predicate matches no LinkAggregate row while the
    organisation-only selection is not empty, the earliest date comes
    from the fallback lookup, the grouped query still runs under the
    original predicate, and both chart sequences are empty; no exception
    is raised. *)
Theorem fill_chart_context_fallback_charts_nothing
    organisations context queryset_filter db :
  QuerySet.filter_ queryset_filter (LinkAggregate_objects db) = [] →
  QuerySet.filter_ (organisation_only organisations)
    (LinkAggregate_objects db) ≠ [] →
  (∃ d,
     is_earliest_date d
       (QuerySet.filter_ (organisation_only organisations)
          (LinkAggregate_objects db)) ∧
     earliest_link_date_lookup organisations queryset_filter db = Ok d ∧
     chart_selection queryset_filter d (LinkAggregate_objects db) = []) ∧
  _fill_chart_context organisations context queryset_filter db
  = Ok (<["eventstream_net_change" := VIntList []]>
        (<["eventstream_dates" := VStrList []]> context)).
Proof.
  intros Hnil Hne.
  destruct (earliest_Ok _ Hne) as (m & _ & Hd).
  pose proof (earliest_link_date_fallback _ _ _ _ Hnil Hd) as Hlookup.
  assert (chart_selection queryset_filter (full_date m)
            (LinkAggregate_objects db) = []) as Hsel.
  { unfold chart_selection. by rewrite filter__and, Hnil. }
  split; [eauto|].
  rewrite (fill_chart_context_found _ _ _ _ _ Hlookup).
  unfold chart_groups. by rewrite Hsel.
Qed.
End chart_claims.

(** ** A program without organisations *)

Section empty_organisation_set.
Implicit Types context : gmap string value.

(** Whatever the builder returns starts with the organisation lookup. *)
Lemma build_queryset_filters_head form_data organisations q :
  _build_queryset_filters form_data organisations = Ok q →
  ∃ rest, children q = organisation__in organisations :: rest.
Proof.
  unfold _build_queryset_filters.
  destruct (form_data !! "start_date") as [[sd|]|],
           (form_data !! "end_date") as [[ed|]|];
    simpl; try destruct (date_ge sd ed); intros [= <-]; simpl; eauto.
Qed.

Lemma filter__no_organisation `{Aggregate A} rest (rows : list A) :
  QuerySet.filter_ (Q_ (organisation__in [] :: rest)) rows = [].
Proof.
  unfold QuerySet.filter_. induction rows as [|r rows IH]; [done|].
  rewrite filter_cons_False; [done|].
  unfold QuerySet.matches.
  cbn [children forallb QuerySet.lookup_holds fmap list_fmap].
  rewrite bool_decide_eq_false_2; [done|]. apply not_elem_of_nil.
Qed.

Lemma fill_chart_context_no_organisation context rest db :
  _fill_chart_context [] context (Q_ (organisation__in [] :: rest)) db
  = Raise DoesNotExist.
Proof.
  unfold _fill_chart_context.
  rewrite !(filter__no_organisation (A:=LinkAggregate)). done.
Qed.

(** The two table steps cope with an empty organisation set: totals are
    [None], counts 0 and the three tables empty. *)
Lemma tables_no_organisation context db :
  let context' :=
    _fill_totals_tables
      (_fill_statistics_table_context context (organisation_only []) db)
      (organisation_only []) db in
  context' !! "total_added" = Some VNone ∧
  context' !! "total_removed" = Some VNone ∧
  context' !! "total_diff" = Some VNone ∧
  context' !! "total_editors" = Some (VInt 0) ∧
  context' !! "total_projects" = Some (VInt 0) ∧
  context' !! "top_organisations" = Some (VOrganisationTotals []) ∧
  context' !! "top_projects" = Some (VNameTotals []) ∧
  context' !! "top_users" = Some (VNameTotals []).
Proof.
  unfold _fill_totals_tables, _fill_statistics_table_context, organisation_only.
  rewrite !(filter__no_organisation (A:=LinkAggregate)).
  rewrite !(filter__no_organisation (A:=UserAggregate)).
  rewrite !(filter__no_organisation (A:=PageProjectAggregate)).
  cbv zeta. split_and!; by simplify_map_eq.
Qed.

(** C2 (the code departs from the claim): for a program with no
    organisation the first earliest-date lookup finds no row, the
    handler repeats the lookup over the organisation-only selection,
    which is empty as well, and [LinkAggregate.DoesNotExist] leaves
    [_fill_chart_context]: no context is returned, with or without form
    data, whatever the tables hold. *)
Theorem empty_organisation_set_raises context db :
  _fill_chart_context [] context (organisation_only []) db
  = Raise DoesNotExist ∧
  _build_context_dictionary [] context None db = Raise DoesNotExist ∧
  (∀ form_data,
     ∃ e, _build_context_dictionary [] context form_data db = Raise e) ∧
  (∀ form_is_valid cleaned_data QUERY_STRING,
     ∃ e, get_context_data context [] form_is_valid cleaned_data
            QUERY_STRING db = Raise e).
Proof.
  assert (∀ context form_data,
            ∃ e, _build_context_dictionary [] context form_data db = Raise e)
    as Hall.
  { intros ctx form_data. unfold _build_context_dictionary.
    destruct (truthy_dict form_data).
    - destruct (_build_queryset_filters _ _) as [q|e] eqn:Hq; simpl; [|eauto].
      apply build_queryset_filters_head in Hq as [rest Hq].
      destruct q as [ch]; simpl in Hq; subst ch.
      rewrite fill_chart_context_no_organisation. simpl. eauto.
    - simpl. rewrite fill_chart_context_no_organisation. simpl. eauto. }
  split; [|split; [|split]].
  - apply fill_chart_context_no_organisation.
  - unfold _build_context_dictionary; simpl.
    by rewrite fill_chart_context_no_organisation.
  - apply Hall.
  - intros valid cleaned qs. unfold get_context_data.
    destruct (Hall (<["form" := VForm valid cleaned]>
                      (<["organisations" := VOrganisations []]> context))
                   (if valid then Some cleaned else None)) as [e ->].
    simpl. eauto.
Qed.
End empty_organisation_set.

(** ** The statistics table *)

Section statistics.
Implicit Types context : gmap string value.

Lemma Count_distinct_size `{Aggregate A} (f : A → string) (rows : list A) :
  QuerySet.Count_distinct f rows
  = Z.of_nat (size (list_to_set (f <$> rows) : gset string)).
Proof.
  unfold QuerySet.Count_distinct. f_equal.
  rewrite <- (size_list_to_set (C:=gset string) (remove_dups (f <$> rows)))
    by apply NoDup_remove_dups.
  f_equal. apply set_eq. intros x.
  by rewrite !elem_of_list_to_set, elem_of_remove_dups.
Qed.

(** C8: the statistics step sets exactly five entries of the context,
    computed over the rows matching the predicate: [total_added] and
    [total_removed] are the sums of [total_links_added] and
    [total_links_removed] over LinkAggregate and [total_diff] their
    difference, each [None] when no row matches; [total_editors] is the
    number of distinct usernames in UserAggregate and [total_projects]
    the number of distinct project names in PageProjectAggregate, both
    0 when no row matches.  Every other entry is left as it was, and the
    step always returns. *)
Theorem fill_statistics_table_context_scalars context queryset_filter db :
  let links :=
    filter (λ r, QuerySet.matches queryset_filter r = true)
           (LinkAggregate_objects db) in
  let users :=
    filter (λ r, QuerySet.matches queryset_filter r = true)
           (UserAggregate_objects db) in
  let projects :=
    filter (λ r, QuerySet.matches queryset_filter r = true)
           (PageProjectAggregate_objects db) in
  let context' :=
    _fill_statistics_table_context context queryset_filter db in
  context' !! "total_added"
    = Some (sql_sum (total_links_added <$> links)) ∧
  context' !! "total_removed"
    = Some (sql_sum (total_links_removed <$> links)) ∧
  context' !! "total_diff"
    = Some (match links with
            | [] => VNone
            | _ => VInt (sum_Z (total_links_added <$> links)
                         - sum_Z (total_links_removed <$> links))
            end) ∧
  context' !! "total_editors"
    = Some (VInt (Z.of_nat
                    (size (list_to_set (username <$> users) : gset string)))) ∧
  context' !! "total_projects"
    = Some (VInt (Z.of_nat
                    (size (list_to_set (project_name <$> projects)
                           : gset string)))) ∧
  (∀ k, k ∉ ["total_added"; "total_removed"; "total_diff";
             "total_editors"; "total_projects"] →
        context' !! k = context !! k) ∧
  (links = [] →
   context' !! "total_added" = Some VNone ∧
   context' !! "total_removed" = Some VNone ∧
   context' !! "total_diff" = Some VNone) ∧
  (users = [] → context' !! "total_editors" = Some (VInt 0)) ∧
  (projects = [] → context' !! "total_projects" = Some (VInt 0)).
Proof.
  intros links users projects context'. subst context'.
  unfold _fill_statistics_table_context.
  rewrite !Count_distinct_size.
  change (QuerySet.filter_ queryset_filter (LinkAggregate_objects db))
    with links.
  change (QuerySet.filter_ queryset_filter (UserAggregate_objects db))
    with users.
  change (QuerySet.filter_ queryset_filter (PageProjectAggregate_objects db))
    with projects.
  assert (py_int (QuerySet.Sum total_links_added links)
          = sql_sum (total_links_added <$> links)) as ->.
  { destruct links; [done|]. unfold QuerySet.Sum.
    by rewrite group_sum_sum_Z. }
  assert (py_int (QuerySet.Sum total_links_removed links)
          = sql_sum (total_links_removed <$> links)) as ->.
  { destruct links; [done|]. unfold QuerySet.Sum.
    by rewrite group_sum_sum_Z. }
  assert (py_int (QuerySet.Sum_sub (QuerySet.Sum total_links_added links)
                    (QuerySet.Sum total_links_removed links))
          = match links with
            | [] => VNone
            | _ => VInt (sum_Z (total_links_added <$> links)
                         - sum_Z (total_links_removed <$> links))
            end) as ->.
  { destruct links; [done|]. unfold QuerySet.Sum.
    by rewrite !group_sum_sum_Z. }
  assert (∀ k, k ∉ ["total_added"; "total_removed"; "total_diff";
                    "total_editors"; "total_projects"] →
               (<["total_projects" :=
                    VInt (Z.of_nat
                            (size (list_to_set (project_name <$> projects)
                                   : gset string)))]>
                (<["total_editors" :=
                     VInt (Z.of_nat
                             (size (list_to_set (username <$> users)
                                    : gset string)))]>
                 (<["total_diff" :=
                      match links with
                      | [] => VNone
                      | _ => VInt (sum_Z (total_links_added <$> links)
                                   - sum_Z (total_links_removed <$> links))
                      end]>
                  (<["total_removed" :=
                       sql_sum (total_links_removed <$> links)]>
                   (<["total_added" :=
                        sql_sum (total_links_added <$> links)]> context)))))
               !! k = context !! k) as Hother.
  { intros k Hk.
    rewrite !lookup_insert_ne; [done|..]; intros <-; apply Hk;
      repeat constructor. }
  split_and!; try (by simplify_map_eq); try exact Hother.
  - intros ->. split_and!; by simplify_map_eq.
  - intros ->. by simplify_map_eq.
  - intros ->. by simplify_map_eq.
Qed.
End statistics.

(** ** The totals tables *)

Section totals_tables.
Implicit Types context : gmap string value.

Global Instance ranks_before_total {K} : Total (@ranks_before K).
Proof. intros a b. unfold ranks_before. lia. Qed.

Global Instance ranks_before_trans {K} : Transitive (@ranks_before K).
Proof. intros a b c. unfold ranks_before. lia. Qed.

Lemma annotate_totals_grouped `{Aggregate A} {K} `{EqDecision K}
    (key : A → K) (rows : list A) :
  grouped_totals key rows (annotate_totals key rows).
Proof.
  unfold annotate_totals. split.
  - rewrite <- list_fmap_compose. apply NoDup_values_keys.
  - intros [k a r d]. rewrite list_elem_of_fmap. simpl. split.
    + intros ([k' g] & Heq & Hg). simpl in Heq.
      injection Heq as -> -> -> ->.
      pose proof (values_group_nonempty _ _ _ _ Hg) as Hne.
      apply elem_of_values in Hg as [_ ->].
      eexists. split; [reflexivity|].
      by rewrite !group_sum_sum_Z.
    + intros (members & -> & Hne & -> & -> & ->).
      eexists (k, _). simpl. split.
      * rewrite <- !group_sum_sum_Z. reflexivity.
      * apply elem_of_values. split; [|done].
        apply filter_nonempty in Hne as (x & Hx & Heq).
        apply list_elem_of_fmap. exists x. done.
Qed.

Lemma StronglySorted_take {B} (R : relation B) (n : nat) (l : list B) :
  StronglySorted R l → StronglySorted R (take n l).
Proof.
  intros Hl. rewrite <- (take_drop n l) in Hl.
  by apply StronglySorted_app_1_l in Hl.
Qed.

Lemma order_by_top5 {K} (groups : list (totals_row K)) :
  top5_of groups (take 5 (order_by groups)) ∧
  (length (take 5 (order_by groups)) ≤ 5)%nat ∧
  StronglySorted ranks_before (take 5 (order_by groups)).
Proof.
  unfold order_by. split; [|split].
  - exists (merge_sort ranks_before groups). split; [|split].
    + apply merge_sort_Permutation.
    + apply StronglySorted_merge_sort; apply _.
    + done.
  - rewrite length_take. lia.
  - apply StronglySorted_take, StronglySorted_merge_sort; apply _.
Qed.

(** C5: each of the three tables the totals step stores holds at most
    five rows in ranking order (greater [links_diff] first, then greater
    [links_added], then greater [links_removed]) and is the first five
    of the full ranking of its groups: LinkAggregate rows grouped by
    organisation id and name, PageProjectAggregate rows by project name,
    UserAggregate rows by username, each over the rows matching the
    predicate. *)
Theorem fill_totals_tables_top5 context queryset_filter db :
  ∃ (organisation_groups top_organisations : list (totals_row (Z * string)))
    (project_groups top_projects user_groups top_users
       : list (totals_row string)),
    let context' := _fill_totals_tables context queryset_filter db in
    context' !! "top_organisations"
      = Some (VOrganisationTotals top_organisations) ∧
    context' !! "top_projects" = Some (VNameTotals top_projects) ∧
    context' !! "top_users" = Some (VNameTotals top_users) ∧
    grouped_totals
      (λ r : LinkAggregate,
         (org_pk (organisation r), org_name (organisation r)))
      (filter (λ r, QuerySet.matches queryset_filter r = true)
         (LinkAggregate_objects db))
      organisation_groups ∧
    grouped_totals project_name
      (filter (λ r, QuerySet.matches queryset_filter r = true)
         (PageProjectAggregate_objects db))
      project_groups ∧
    grouped_totals username
      (filter (λ r, QuerySet.matches queryset_filter r = true)
         (UserAggregate_objects db))
      user_groups ∧
    top5_of organisation_groups top_organisations ∧
    top5_of project_groups top_projects ∧
    top5_of user_groups top_users ∧
    (length top_organisations ≤ 5)%nat ∧
    (length top_projects ≤ 5)%nat ∧
    (length top_users ≤ 5)%nat ∧
    StronglySorted ranks_before top_organisations ∧
    StronglySorted ranks_before top_projects ∧
    StronglySorted ranks_before top_users.
Proof.
  eexists _, _, _, _, _, _. simpl. unfold _fill_totals_tables.
  split_and!;
    try (rewrite ?lookup_insert_ne by done; apply lookup_insert_eq);
    try apply annotate_totals_grouped;
    try apply order_by_top5.
Qed.
End totals_tables.

(** ** Two organisations, no date filter *)

Section scenario.
Implicit Types context : gmap string value.

Lemma filter_all {B} (P : B → Prop) `{∀ x, Decision (P x)} (l : list B) :
  (∀ x, x ∈ l → P x) → filter P l = l.
Proof.
  induction l as [|x l IH]; intros Hall; [done|].
  rewrite filter_cons_True by (apply Hall; left).
  f_equal. apply IH. intros y Hy. apply Hall. by right.
Qed.

Lemma filter_iff_on {B} (P1 P2 : B → Prop)
    `{∀ x, Decision (P1 x)} `{∀ x, Decision (P2 x)} (l : list B) :
  (∀ x, x ∈ l → P1 x ↔ P2 x) → filter P1 l = filter P2 l.
Proof.
  induction l as [|x l IH]; intros Hiff; [done|].
  rewrite !filter_cons.
  rewrite IH by (intros y Hy; apply Hiff; by right).
  pose proof (Hiff x (list_elem_of_here _ _)).
  destruct (decide (P1 x)), (decide (P2 x)); try done; tauto.
Qed.

(** With two owners the sum over all rows splits into the sums over the
    rows of each. *)
Lemma sum_Z_two_owners (A B : Organisation) (f : LinkAggregate → Z)
    (links : list LinkAggregate) :
  A ≠ B →
  (∀ r, r ∈ links → organisation r = A ∨ organisation r = B) →
  sum_Z (f <$> links)
  = sum_Z (f <$> filter (λ r, organisation r = A) links)
    + sum_Z (f <$> filter (λ r, organisation r = B) links).
Proof.
  intros HAB. induction links as [|r links IH]; intros Hown; [done|].
  assert (sum_Z (f <$> links)
          = sum_Z (f <$> filter (λ r, organisation r = A) links)
            + sum_Z (f <$> filter (λ r, organisation r = B) links)) as IH'.
  { apply IH. intros y Hy. apply Hown. by right. }
  destruct (Hown r (list_elem_of_here _ _)) as [Hr | Hr].
  - rewrite (filter_cons_True (λ r, organisation r = A)) by done.
    rewrite (filter_cons_False (λ r, organisation r = B)) by congruence.
    rewrite !fmap_cons. unfold sum_Z in *. cbn [foldr]. lia.
  - rewrite (filter_cons_False (λ r, organisation r = A)) by congruence.
    rewrite (filter_cons_True (λ r, organisation r = B)) by done.
    rewrite !fmap_cons. unfold sum_Z in *. cbn [foldr]. lia.
Qed.

(** A duplicate-free list made of two distinct values, both present. *)
Lemma NoDup_two {B} (a b : B) (l : list B) :
  NoDup l → a ≠ b → a ∈ l → b ∈ l → (∀ x, x ∈ l → x = a ∨ x = b) →
  l = [a; b] ∨ l = [b; a].
Proof.
  intros Hnd Hab Ha Hb Hall.
  destruct l as [|x [|y [|z l]]].
  - by apply elem_of_nil in Ha.
  - apply list_elem_of_singleton in Ha, Hb. congruence.
  - apply NoDup_cons in Hnd as [Hxy _].
    rewrite list_elem_of_singleton in Hxy.
    destruct (Hall x) as [-> | ->]; [left|..];
      (destruct (Hall y) as [-> | ->]; [right; left|..]); try done; auto.
  - exfalso.
    apply NoDup_cons in Hnd as [Hx Hnd]. apply NoDup_cons in Hnd as [Hy _].
    rewrite !elem_of_cons in Hx. rewrite elem_of_cons in Hy.
    destruct (Hall x) as [-> | ->]; [left|..];
      (destruct (Hall y) as [-> | ->]; [right; left|..]);
      (destruct (Hall z) as [-> | ->]; [do 2 right; left|..]);
      naive_solver.
Qed.

Lemma no_date_filter_predicate organisations form_data :
  no_date_filter form_data →
  (if truthy_dict form_data
   then _build_queryset_filters (default ∅ form_data) organisations
   else Ok (Q_ [organisation__in organisations]))
  = Ok (Q_ [organisation__in organisations]).
Proof.
  intros [-> | (fd & -> & Hs & He)]; [done|].
  rewrite (truthy_dict_lookup _ _ _ Hs). simpl.
  apply build_queryset_filters_no_dates; auto.
Qed.

Lemma Sum_nonempty `{Aggregate A} (f : A → Z) (rows : list A) :
  rows ≠ [] → QuerySet.Sum f rows = Some (sum_Z (f <$> rows)).
Proof.
  destruct rows; [done|]. intros _. unfold QuerySet.Sum.
  by rewrite group_sum_sum_Z.
Qed.

(** The groups of the organisations table when the rows belong to two
    organisations whose sums are known. *)
Lemma annotate_totals_two_owners
    (A B : Organisation) (links : list LinkAggregate) (aA rA aB rB : Z) :
  org_pk A ≠ org_pk B →
  (∀ r, r ∈ links → organisation r = A ∨ organisation r = B) →
  filter (λ r, organisation r = A) links ≠ [] →
  filter (λ r, organisation r = B) links ≠ [] →
  sum_Z (total_links_added <$> filter (λ r, organisation r = A) links) = aA →
  sum_Z (total_links_removed <$> filter (λ r, organisation r = A) links) = rA →
  sum_Z (total_links_added <$> filter (λ r, organisation r = B) links) = aB →
  sum_Z (total_links_removed <$> filter (λ r, organisation r = B) links) = rB →
  let gA := TotalsRow (org_pk A, org_name A) aA rA (aA - rA) in
  let gB := TotalsRow (org_pk B, org_name B) aB rB (aB - rB) in
  let groups :=
    annotate_totals
      (λ r : LinkAggregate,
         (org_pk (organisation r), org_name (organisation r))) links in
  groups = [gA; gB] ∨ groups = [gB; gA].
Proof.
  intros Hpk Hown HneA HneB HAa HAr HBa HBr gA gB groups.
  set (key := λ r : LinkAggregate,
                (org_pk (organisation r), org_name (organisation r))).
  assert (filter (λ r, key r = (org_pk A, org_name A)) links
          = filter (λ r, organisation r = A) links) as HfA.
  { apply filter_iff_on. intros r Hr. unfold key. split.
    - intros Hk. destruct (Hown r Hr) as [-> | HB]; [done|].
      rewrite HB in Hk. injection Hk as Heq _. by destruct Hpk.
    - by intros ->. }
  assert (filter (λ r, key r = (org_pk B, org_name B)) links
          = filter (λ r, organisation r = B) links) as HfB.
  { apply filter_iff_on. intros r Hr. unfold key. split.
    - intros Hk. destruct (Hown r Hr) as [HA | ->]; [|done].
      rewrite HA in Hk. injection Hk as Heq _. by destruct Hpk.
    - by intros ->. }
  assert (remove_dups (key <$> links)
            = [(org_pk A, org_name A); (org_pk B, org_name B)] ∨
          remove_dups (key <$> links)
            = [(org_pk B, org_name B); (org_pk A, org_name A)]) as Hks.
  { apply NoDup_two.
    - apply NoDup_remove_dups.
    - intros [= Heq _]. by destruct Hpk.
    - rewrite elem_of_remove_dups, list_elem_of_fmap.
      apply filter_nonempty in HneA as (r & Hr & <-). by exists r.
    - rewrite elem_of_remove_dups, list_elem_of_fmap.
      apply filter_nonempty in HneB as (r & Hr & <-). by exists r.
    - intros k. rewrite elem_of_remove_dups, list_elem_of_fmap.
      intros (r & -> & Hr). unfold key.
      destruct (Hown r Hr) as [-> | ->]; auto. }
  subst groups. unfold annotate_totals, QuerySet.values. fold key.
  unfold key in HfA, HfB. cbn beta in HfA, HfB.
  destruct Hks as [-> | ->]; [left | right];
    cbn [fmap list_fmap fst snd]; rewrite HfA, HfB;
    rewrite !group_sum_sum_Z, HAa, HAr, HBa, HBr; reflexivity.
Qed.

(** C9: when the LinkAggregate rows belong to two organisations A and B
    of the program, those of A adding up to 100 links added and 10
    removed and those of B to 50 added and 60 removed, and no date
    filter is in force, the view computes [total_added = 150],
    [total_removed = 70], [total_diff = 80] and [top_organisations] is
    A with a difference of 90 followed by B with a difference of -10. *)
Theorem two_organisations_scenario
    (A B : Organisation) context form_data db :
  org_pk A ≠ org_pk B →
  (∀ r, r ∈ LinkAggregate_objects db →
        organisation r = A ∨ organisation r = B) →
  sum_Z (total_links_added
           <$> filter (λ r, organisation r = A) (LinkAggregate_objects db))
  = 100 →
  sum_Z (total_links_removed
           <$> filter (λ r, organisation r = A) (LinkAggregate_objects db))
  = 10 →
  sum_Z (total_links_added
           <$> filter (λ r, organisation r = B) (LinkAggregate_objects db))
  = 50 →
  sum_Z (total_links_removed
           <$> filter (λ r, organisation r = B) (LinkAggregate_objects db))
  = 60 →
  no_date_filter form_data →
  ∃ context',
    _build_context_dictionary [A; B] context form_data db = Ok context' ∧
    context' !! "total_added" = Some (VInt 150) ∧
    context' !! "total_removed" = Some (VInt 70) ∧
    context' !! "total_diff" = Some (VInt 80) ∧
    context' !! "top_organisations"
      = Some (VOrganisationTotals
                [TotalsRow (org_pk A, org_name A) 100 10 90;
                 TotalsRow (org_pk B, org_name B) 50 60 (-10)]).
Proof.
  intros Hpk Hown HAa HAr HBa HBr Hnf.
  assert (A ≠ B) as HAB by congruence.
  set (links := LinkAggregate_objects db) in *.
  assert (QuerySet.filter_ (Q_ [organisation__in [A; B]]) links = links)
    as Hfilter.
  { apply filter_all. intros r Hr.
    apply (matches_organisation_only [A; B]).
    destruct (Hown r Hr) as [-> | ->]; set_solver. }
  assert (filter (λ r, organisation r = A) links ≠ []) as HneA.
  { intros Hnil. rewrite Hnil in HAa. done. }
  assert (filter (λ r, organisation r = B) links ≠ []) as HneB.
  { intros Hnil. rewrite Hnil in HBa. done. }
  assert (links ≠ []) as Hne.
  { intros Hnil. rewrite Hnil in HneA. done. }
  destruct (earliest_Ok links Hne) as (m & Hm & Hd).
  assert (earliest_link_date_lookup [A; B] (Q_ [organisation__in [A; B]]) db
          = Ok (full_date m)) as Hlookup.
  { apply earliest_link_date_filtered. fold links. by rewrite Hfilter. }
  unfold _build_context_dictionary.
  rewrite (no_date_filter_predicate _ _ Hnf).
  cbn [mbind result_bind].
  rewrite (fill_chart_context_found _ _ _ _ _ Hlookup).
  eexists. split; [reflexivity|].
  unfold _fill_totals_tables, _fill_statistics_table_context.
  fold links. rewrite !Hfilter.
  rewrite !(Sum_nonempty _ links Hne).
  rewrite !(sum_Z_two_owners A B _ links HAB Hown), HAa, HAr, HBa, HBr.
  assert (order_by
            (annotate_totals
               (λ r : LinkAggregate,
                  (org_pk (organisation r), org_name (organisation r)))
               links)
          = [TotalsRow (org_pk A, org_name A) 100 10 90;
             TotalsRow (org_pk B, org_name B) 50 60 (-10)]) as ->.
  { destruct (annotate_totals_two_owners A B links 100 10 50 60)
      as [-> | ->]; auto. }
  split_and!; by simplify_map_eq.
Qed.
End scenario.

(** ** The properties at the sample data *)

Section instances.
Import Sample.

(** The inverted range 2024-02-01 .. 2024-01-01. *)
Lemma inverted_range_is_no_filter_witness :
  date_ge feb_1 jan_1 = true ∧
  _build_queryset_filters inverted_form [org_A; org_B]
  = Ok (Q_ [organisation__in [org_A; org_B]]) ∧
  ∀ context db,
    _build_context_dictionary [org_A; org_B] context (Some inverted_form) db
    = _build_context_dictionary [org_A; org_B] context None db.
Proof.
  split; [reflexivity|].
  apply (inverted_range_is_no_filter inverted_form [org_A; org_B] feb_1 jan_1);
    reflexivity.
Defined.

(** The range 2024-01-01 .. 2024-02-01. *)
Lemma build_queryset_filters_inclusive_range_witness :
  date_lt jan_1 feb_1 = true ∧
  _build_queryset_filters range_form [org_A; org_B]
  = Ok (Q_ [organisation__in [org_A; org_B];
            full_date__gte jan_1; full_date__lte feb_1]) ∧
  ∀ r : LinkAggregate,
    r ∈ QuerySet.filter_
          (Q_ [organisation__in [org_A; org_B];
               full_date__gte jan_1; full_date__lte feb_1]) links ↔
    r ∈ links ∧
    org_pk (organisation r) ∈ org_pk <$> [org_A; org_B] ∧
    date_le jan_1 (full_date r) = true ∧
    date_le (full_date r) feb_1 = true.
Proof.
  split; [reflexivity|].
  destruct (build_queryset_filters_inclusive_range
              range_form [org_A; org_B] jan_1 feb_1)
    as (Hq & _ & Hrows); [reflexivity..|].
  split; [exact Hq|]. intros r. apply Hrows.
Defined.

(** A start date alone, and an end date alone. *)
Lemma build_queryset_filters_single_bound_witness :
  _build_queryset_filters start_only_form [org_A; org_B]
  = Ok (Q_ [organisation__in [org_A; org_B]; full_date__gte jan_1]) ∧
  _build_queryset_filters end_only_form [org_A; org_B]
  = Ok (Q_ [organisation__in [org_A; org_B]; full_date__lte feb_1]).
Proof.
  split.
  - apply (proj1 (build_queryset_filters_single_bound
                    start_only_form [org_A; org_B] jan_1));
      [reflexivity | right; reflexivity].
  - apply (proj2 (build_queryset_filters_single_bound
                    end_only_form [org_A; org_B] feb_1));
      [reflexivity | right; reflexivity].
Defined.

(** The chart of the sample database; its earliest date is 2024-01-01. *)
Lemma fill_chart_context_series_witness :
  is_earliest_date jan_1
    (QuerySet.filter_ (organisation_only [org_A; org_B])
       (LinkAggregate_objects db)) ∧
  ∃ groups : list (Z * Z * Z),
    _fill_chart_context [org_A; org_B] ∅ (organisation_only [org_A; org_B]) db
    = Ok (<["eventstream_net_change" := VIntList (groups.*2)]>
          (<["eventstream_dates" :=
               VStrList ((λ g : Z * Z * Z,
                            pretty g.1.2 +:+ "-" +:+ pretty g.1.1)
                         <$> groups)]> ∅)) ∧
    NoDup (groups.*1) ∧
    (1, 2024, 90) ∈ groups ∧ (2, 2024, -10) ∈ groups.
Proof.
  assert (is_earliest_date jan_1
            (QuerySet.filter_ (organisation_only [org_A; org_B])
               (LinkAggregate_objects db))) as Hd.
  { apply (bool_decide_unpack _). vm_compute. exact I. }
  split; [exact Hd|].
  destruct (fill_chart_context_series [org_A; org_B] ∅
              (organisation_only [org_A; org_B]) db jan_1 (or_introl Hd))
    as (groups & Hctx & Hnd & Hgroups).
  exists groups. split; [exact Hctx|]. split; [exact Hnd|]. split.
  - apply Hgroups. eexists. split; [reflexivity|].
    split; [vm_compute; discriminate | reflexivity].
  - apply Hgroups. eexists. split; [reflexivity|].
    split; [vm_compute; discriminate | reflexivity].
Defined.

(** A lower bound in 2025 matches no sample row: the chart is empty. *)
Lemma fill_chart_context_fallback_charts_nothing_witness :
  QuerySet.filter_ after_all (LinkAggregate_objects db) = [] ∧
  QuerySet.filter_ (organisation_only [org_A; org_B])
    (LinkAggregate_objects db) ≠ [] ∧
  _fill_chart_context [org_A; org_B] ∅ after_all db
  = Ok (<["eventstream_net_change" := VIntList []]>
        (<["eventstream_dates" := VStrList []]> ∅)).
Proof.
  assert (QuerySet.filter_ after_all (LinkAggregate_objects db) = []) as Hnil
    by reflexivity.
  assert (QuerySet.filter_ (organisation_only [org_A; org_B])
            (LinkAggregate_objects db) ≠ []) as Hne
    by (vm_compute; discriminate).
  split; [exact Hnil|]. split; [exact Hne|].
  exact (proj2 (fill_chart_context_fallback_charts_nothing
                  [org_A; org_B] ∅ after_all db Hnil Hne)).
Defined.

(** No organisation, hence no matching row: null totals, zero counts. *)
Lemma fill_statistics_table_context_scalars_witness :
  (_fill_statistics_table_context ∅ (organisation_only []) db
     !! "total_added" = Some VNone ∧
   _fill_statistics_table_context ∅ (organisation_only []) db
     !! "total_removed" = Some VNone ∧
   _fill_statistics_table_context ∅ (organisation_only []) db
     !! "total_diff" = Some VNone) ∧
  _fill_statistics_table_context ∅ (organisation_only []) db
    !! "total_editors" = Some (VInt 0) ∧
  _fill_statistics_table_context ∅ (organisation_only []) db
    !! "total_projects" = Some (VInt 0).
Proof.
  pose proof (fill_statistics_table_context_scalars
                ∅ (organisation_only []) db) as Hs.
  cbv zeta in Hs.
  destruct Hs as (_ & _ & _ & _ & _ & _ & Hl & Hu & Hp).
  split; [apply Hl; reflexivity|].
  split; [apply Hu; reflexivity | apply Hp; reflexivity].
Defined.

(** The sample database is the two-organisation scenario. *)
Lemma two_organisations_scenario_witness :
  ∃ context',
    _build_context_dictionary [org_A; org_B] ∅ None db = Ok context' ∧
    context' !! "total_added" = Some (VInt 150) ∧
    context' !! "total_removed" = Some (VInt 70) ∧
    context' !! "total_diff" = Some (VInt 80) ∧
    context' !! "top_organisations"
      = Some (VOrganisationTotals
                [TotalsRow (1, "A") 100 10 90;
                 TotalsRow (2, "B") 50 60 (-10)]).
Proof.
  apply (two_organisations_scenario org_A org_B ∅ None db).
  - vm_compute. discriminate.
  - apply Forall_forall.
    constructor; [left; reflexivity|].
    constructor; [right; reflexivity|].
    constructor.
  - reflexivity.
  - reflexivity.
  - reflexivity.
  - reflexivity.
  - left. reflexivity.
Defined.

(** The sample database evaluated: the chart series and the rankings. *)
Example sample_chart :
  _fill_chart_context [org_A; org_B] ∅ (organisation_only [org_A; org_B]) db
  = Ok (<["eventstream_net_change" := VIntList [90; -10]]>
        (<["eventstream_dates" := VStrList ["2024-1"; "2024-2"]]> ∅)).
Proof. vm_compute. reflexivity. Qed.

Example sample_range_chart :
  (_build_queryset_filters start_only_form [org_A; org_B]
     ≫= λ q, _fill_chart_context [org_A; org_B] ∅ q db)
  = Ok (<["eventstream_net_change" := VIntList [90; -10]]>
        (<["eventstream_dates" := VStrList ["2024-1"; "2024-2"]]> ∅)).
Proof. vm_compute. reflexivity. Qed.

Example sample_top_users :
  _fill_totals_tables ∅ (organisation_only [org_A; org_B]) db !! "top_users"
  = Some (VNameTotals [TotalsRow "Alice" 100 10 90]).
Proof. vm_compute. reflexivity. Qed.

Example sample_no_organisation :
  get_context_data ∅ [] true inverted_form
    "start_date=2024-02-01&end_date=2024-01-01" db
  = Raise DoesNotExist.
Proof. vm_compute. reflexivity. Qed.
End instances.

(** * Further properties *)

(** ** The filter builder on every dictionary *)

Section filter_builder_more.
Implicit Types form_data : gmap string (option date).
Implicit Types organisations : list Organisation.

(** X1: on every dictionary the builder either returns a predicate, which
    happens exactly when the [end_date] key is present or a start date is
    given, or raises [UnboundLocalError], which happens exactly when the
    [end_date] key is missing and no start date is given; it raises
    nothing else. *)
Theorem build_queryset_filters_outcome form_data organisations :
  (∃ q, _build_queryset_filters form_data organisations = Ok q ∧
        (is_Some (form_data !! "end_date") ∨
         ∃ sd, form_data !! "start_date" = Some (Some sd))) ∨
  (_build_queryset_filters form_data organisations = Raise UnboundLocalError ∧
   form_data !! "end_date" = None ∧
   ∀ sd, form_data !! "start_date" ≠ Some (Some sd)).
Proof.
  destruct (form_data !! "end_date") as [ve|] eqn:He.
  - left.
    destruct (build_queryset_filters_returns form_data organisations)
      as [q Hq]; [left; rewrite He; eauto|].
    exists q. split; [done|]. left. eauto.
  - destruct (form_data !! "start_date") as [[sd|]|] eqn:Hs.
    + left.
      destruct (build_queryset_filters_returns form_data organisations)
        as [q Hq]; [right; eauto|].
      exists q. split; [done|]. right. eauto.
    + right. split; [|split; [done|]].
      * apply build_queryset_filters_unbound; [done|]. by rewrite Hs.
      * done.
    + right. split; [|split; [done|]].
      * apply build_queryset_filters_unbound; [done|]. by rewrite Hs.
      * done.
Qed.

(** X2: whatever predicate the builder returns only narrows the
    organisation-only selection: the rows it selects from any table are a
    sublist of the rows of the program's organisations, in table order. *)
Theorem build_queryset_filters_narrows
    form_data organisations (q : Q)
    (A : Type) (HA : Aggregate A) (rows : list A) :
  _build_queryset_filters form_data organisations = Ok q →
  QuerySet.filter_ q rows
    `sublist_of` QuerySet.filter_ (organisation_only organisations) rows ∧
  Forall (λ r, org_pk (organisation r) ∈ org_pk <$> organisations)
         (QuerySet.filter_ q rows).
Proof.
  intros Hq. apply build_queryset_filters_head in Hq as [rest Hq].
  assert (QuerySet.filter_ q rows
          = filter (λ r, QuerySet.matches (Q_ rest) r = true)
              (QuerySet.filter_ (organisation_only organisations) rows))
    as Hsel.
  { rewrite <- (filter__and (organisation_only organisations) rest rows).
    destruct q as [ch]. simpl in Hq. by subst ch. }
  split.
  - rewrite Hsel. apply sublist_filter.
  - apply Forall_forall. intros r Hr. rewrite Hsel in Hr.
    apply list_elem_of_filter in Hr as [_ Hr].
    apply elem_of_filter_ in Hr as [Hr _].
    by apply matches_organisation_only in Hr.
Qed.
End filter_builder_more.

(** ** Sums over groups *)

Section group_sums.
Context {B K : Type} `{EqDecision K}.
Implicit Types (key : B → K) (f : B → Z) (rows : list B) (ks : list K).

Lemma sum_Z_app (l1 l2 : list Z) : sum_Z (l1 ++ l2) = sum_Z l1 + sum_Z l2.
Proof.
  unfold sum_Z. induction l1 as [|x l1 IH]; cbn [foldr app]; [done|].
  rewrite IH. lia.
Qed.

Lemma sum_Z_Permutation (l1 l2 : list Z) : l1 ≡ₚ l2 → sum_Z l1 = sum_Z l2.
Proof.
  unfold sum_Z. induction 1; cbn [foldr]; lia.
Qed.

Lemma filter_none (P : B → Prop) `{∀ x, Decision (P x)} rows :
  (∀ x, x ∈ rows → ¬ P x) → filter P rows = [].
Proof.
  induction rows as [|x rows IH]; intros Hnone; [done|].
  rewrite filter_cons_False by (apply Hnone; left).
  apply IH. intros y Hy. apply Hnone. by right.
Qed.

(** The rows whose key is [k] or one of [ks], [k] not among them, split
    into the rows with key [k] and the rows with a key of [ks]. *)
Lemma sum_filter_key_cons key f rows k ks :
  k ∉ ks →
  sum_Z (f <$> filter (λ r, key r ∈ k :: ks) rows)
  = sum_Z (f <$> filter (λ r, key r = k) rows)
    + sum_Z (f <$> filter (λ r, key r ∈ ks) rows).
Proof.
  intros Hk. induction rows as [|r rows IH]; [done|].
  rewrite !filter_cons.
  destruct (decide (key r = k)) as [Heq|Hne].
  - rewrite decide_True by (rewrite Heq; left).
    rewrite decide_False by (by rewrite Heq).
    rewrite !fmap_cons. unfold sum_Z in *. cbn [foldr]. lia.
  - destruct (decide (key r ∈ ks)) as [Hin|Hnin].
    + rewrite decide_True by (by right).
      rewrite !fmap_cons. unfold sum_Z in *. cbn [foldr]. lia.
    + rewrite decide_False; [done|].
      intros [?|?]%elem_of_cons; done.
Qed.

(** Summing group by group over distinct keys is summing over the rows
    that carry one of the keys. *)
Lemma sum_by_key key f rows ks :
  NoDup ks →
  sum_Z ((λ k, sum_Z (f <$> filter (λ r, key r = k) rows)) <$> ks)
  = sum_Z (f <$> filter (λ r, key r ∈ ks) rows).
Proof.
  induction 1 as [|k ks Hk Hnd IH].
  - rewrite filter_none; [done|]. intros x _. apply not_elem_of_nil.
  - rewrite fmap_cons, sum_filter_key_cons by done.
    rewrite <- IH. unfold sum_Z. cbn [foldr]. done.
Qed.

Lemma sum_by_all_keys key f rows :
  sum_Z ((λ k, sum_Z (f <$> filter (λ r, key r = k) rows))
         <$> remove_dups (key <$> rows))
  = sum_Z (f <$> rows).
Proof.
  rewrite sum_by_key by apply NoDup_remove_dups.
  rewrite filter_all; [done|].
  intros r Hr. rewrite elem_of_remove_dups. by apply list_elem_of_fmap_2.
Qed.
End group_sums.

(** ** The chart step on every input *)

Section chart_more.
Implicit Types organisations : list Organisation.
Implicit Types context : gmap string value.

Lemma sum_Z_fmap_sub {B} (f g : B → Z) (l : list B) :
  sum_Z ((λ x, f x - g x) <$> l) = sum_Z (f <$> l) - sum_Z (g <$> l).
Proof.
  unfold sum_Z. induction l as [|x l IH]; [done|].
  rewrite !fmap_cons. cbn [foldr]. lia.
Qed.

Lemma values_group_sum `{Aggregate A} `{EqDecision K}
    (key : A → K) (f : A → Z) (rows : list A) :
  sum_Z ((λ g : K * list A, QuerySet.group_sum f g.2)
         <$> QuerySet.values key rows)
  = sum_Z (f <$> rows).
Proof.
  unfold QuerySet.values. rewrite <- list_fmap_compose.
  rewrite <- (sum_by_all_keys key f rows). f_equal.
  apply list_fmap_ext. intros i k _. simpl. apply group_sum_sum_Z.
Qed.

(** When rows match, none is dated before the earliest of them: the chart
    query selects all of them. *)
Lemma chart_selection_all q d (links : list LinkAggregate) :
  is_earliest_date d (QuerySet.filter_ q links) →
  chart_selection q d links = QuerySet.filter_ q links.
Proof.
  intros [_ Hmin]%is_earliest_date_alt.
  unfold chart_selection. rewrite filter__and.
  apply filter_all. intros r Hr.
  unfold QuerySet.matches.
  cbn [children forallb QuerySet.lookup_holds]. unfold date_ge.
  by rewrite (Hmin r Hr).
Qed.

Lemma chart_groups_sum q d (links : list LinkAggregate) :
  sum_Z (chart_groups q d links).*2
  = sum_Z (total_links_added <$> chart_selection q d links)
    - sum_Z (total_links_removed <$> chart_selection q d links).
Proof.
  unfold chart_groups. rewrite <- list_fmap_compose.
  rewrite <- (values_group_sum (λ r : LinkAggregate, (month r, year r))
                total_links_added).
  rewrite <- (values_group_sum (λ r : LinkAggregate, (month r, year r))
                total_links_removed).
  rewrite <- sum_Z_fmap_sub. done.
Qed.

(** X3: the chart step fails only with [DoesNotExist], and exactly when
    neither the predicate nor the organisation-only lookup finds a
    LinkAggregate row; otherwise it returns the incoming context with the
    two chart entries set to lists of equal length. *)
Theorem fill_chart_context_outcome organisations context q db :
  (QuerySet.filter_ q (LinkAggregate_objects db) = [] ∧
   QuerySet.filter_ (organisation_only organisations)
     (LinkAggregate_objects db) = [] ∧
   _fill_chart_context organisations context q db = Raise DoesNotExist) ∨
  (¬ (QuerySet.filter_ q (LinkAggregate_objects db) = [] ∧
      QuerySet.filter_ (organisation_only organisations)
        (LinkAggregate_objects db) = []) ∧
   ∃ dates nets,
     _fill_chart_context organisations context q db
     = Ok (<["eventstream_net_change" := VIntList nets]>
           (<["eventstream_dates" := VStrList dates]> context)) ∧
     length dates = length nets).
Proof.
  assert (∀ d, earliest_link_date_lookup organisations q db = Ok d →
               ∃ dates nets,
                 _fill_chart_context organisations context q db
                 = Ok (<["eventstream_net_change" := VIntList nets]>
                       (<["eventstream_dates" := VStrList dates]> context)) ∧
                 length dates = length nets) as Hfound.
  { intros d Hd. eexists _, _. split.
    - by apply fill_chart_context_found.
    - by rewrite !length_fmap. }
  destruct (QuerySet.filter_ q (LinkAggregate_objects db)) as [|r rs] eqn:Hq.
  - destruct (QuerySet.filter_ (organisation_only organisations)
                (LinkAggregate_objects db)) as [|r' rs'] eqn:Ho.
    + left. split; [done|]. split; [done|].
      unfold _fill_chart_context. unfold organisation_only in Ho.
      by rewrite Hq, Ho.
    + right. split; [by intros [_ ?]|].
      destruct (earliest_Ok (r' :: rs')) as (m & _ & Hm); [done|].
      apply (Hfound (full_date m)).
      apply earliest_link_date_fallback; [done|]. by rewrite Ho.
  - right. split; [by intros [? _]|].
    destruct (earliest_Ok (r :: rs)) as (m & _ & Hm); [done|].
    apply (Hfound (full_date m)).
    apply earliest_link_date_filtered. by rewrite Hq.
Qed.

(** X4: when some LinkAggregate row matches the predicate, every matching
    row is charted: the chart's net changes add up to the sum of links
    added minus the sum of links removed over the matching rows, which is
    the [total_diff] the statistics step reports. *)
Theorem chart_net_changes_sum_to_total_diff organisations context q db :
  QuerySet.filter_ q (LinkAggregate_objects db) ≠ [] →
  ∃ context' nets,
    _fill_chart_context organisations context q db = Ok context' ∧
    context' !! "eventstream_net_change" = Some (VIntList nets) ∧
    sum_Z nets
    = sum_Z (total_links_added
               <$> QuerySet.filter_ q (LinkAggregate_objects db))
      - sum_Z (total_links_removed
                 <$> QuerySet.filter_ q (LinkAggregate_objects db)) ∧
    _fill_statistics_table_context context' q db !! "total_diff"
    = Some (VInt (sum_Z nets)).
Proof.
  intros Hne.
  destruct (earliest_Ok _ Hne) as (m & _ & Hm).
  pose proof (earliest_link_date_filtered organisations _ _ _ Hm) as Hlookup.
  pose proof (chart_groups_sum q (full_date m) (LinkAggregate_objects db))
    as Hsum.
  rewrite (chart_selection_all _ _ _ Hm) in Hsum.
  eexists _, _. split; [by apply fill_chart_context_found|].
  split; [by rewrite lookup_insert_eq|]. split; [exact Hsum|].
  unfold _fill_statistics_table_context.
  rewrite !lookup_insert_ne by done. rewrite lookup_insert_eq.
  rewrite Hsum, !(Sum_nonempty _ _ Hne). reflexivity.
Qed.
End chart_more.

(** ** The context as a whole *)

Section context_more.
Implicit Types organisations : list Organisation.
Implicit Types context : gmap string value.
Implicit Types form_data : option (gmap string (option date)).

Lemma build_queryset_filters_cases
    (fd : gmap string (option date)) organisations :
  (∃ q, _build_queryset_filters fd organisations = Ok q) ∨
  _build_queryset_filters fd organisations = Raise UnboundLocalError.
Proof.
  unfold _build_queryset_filters.
  destruct (fd !! "start_date") as [[sd|]|], (fd !! "end_date") as [[ed|]|];
    simpl; try destruct (date_ge sd ed); eauto.
Qed.

Lemma resolved_filter_cases organisations form_data :
  (∃ q rest, resolved_filter organisations form_data = Ok q ∧
             children q = organisation__in organisations :: rest) ∨
  resolved_filter organisations form_data = Raise UnboundLocalError.
Proof.
  unfold resolved_filter. destruct (truthy_dict form_data).
  - destruct (build_queryset_filters_cases (default ∅ form_data) organisations)
      as [[q Hq] | Hq]; [left | by right].
    destruct (build_queryset_filters_head _ _ _ Hq) as [rest Hrest]. eauto.
  - left. eexists _, []. done.
Qed.

Lemma filter__within `{Aggregate A} organisations (q : Q) rest (rows : list A) :
  children q = organisation__in organisations :: rest →
  QuerySet.filter_ (organisation_only organisations) rows = [] →
  QuerySet.filter_ q rows = [].
Proof.
  intros Hq Hnil. destruct q as [ch]. simpl in Hq. subst ch.
  pose proof (filter__and (organisation_only organisations) rest rows) as Hsel.
  simpl in Hsel. rewrite Hsel, Hnil. done.
Qed.

Lemma build_context_dictionary_steps organisations context form_data db :
  _build_context_dictionary organisations context form_data db
  = (resolved_filter organisations form_data
     ≫= λ q, _fill_chart_context organisations context q db
     ≫= λ context1,
          Ok (_fill_totals_tables
                (_fill_statistics_table_context context1 q db) q db)).
Proof. reflexivity. Qed.

Lemma fill_chart_context_inv organisations context q db context' :
  _fill_chart_context organisations context q db = Ok context' →
  ∃ dates nets,
    context' = <["eventstream_net_change" := VIntList nets]>
                 (<["eventstream_dates" := VStrList dates]> context).
Proof.
  destruct (earliest_link_date_lookup organisations q db) as [d|e] eqn:Hd.
  - rewrite (fill_chart_context_found _ _ _ _ _ Hd). intros [= <-]. eauto.
  - unfold _fill_chart_context. unfold earliest_link_date_lookup in Hd.
    rewrite Hd. done.
Qed.

(** X5: [_build_context_dictionary] has three outcomes.  It raises
    [UnboundLocalError] when the filter builder does; it raises
    [DoesNotExist] when the builder returns and no LinkAggregate row
    belongs to the program's organisations, whatever the dates; in every
    other case it returns a context.  A date range that matches nothing
    does not make it fail as long as the program has rows. *)
Theorem build_context_dictionary_outcome organisations context form_data db :
  (resolved_filter organisations form_data = Raise UnboundLocalError ∧
   _build_context_dictionary organisations context form_data db
   = Raise UnboundLocalError) ∨
  ((∃ q, resolved_filter organisations form_data = Ok q) ∧
   QuerySet.filter_ (organisation_only organisations)
     (LinkAggregate_objects db) = [] ∧
   _build_context_dictionary organisations context form_data db
   = Raise DoesNotExist) ∨
  ((∃ q, resolved_filter organisations form_data = Ok q) ∧
   QuerySet.filter_ (organisation_only organisations)
     (LinkAggregate_objects db) ≠ [] ∧
   ∃ context',
     _build_context_dictionary organisations context form_data db
     = Ok context').
Proof.
  rewrite build_context_dictionary_steps.
  destruct (resolved_filter_cases organisations form_data)
    as [(q & rest & Hq & Hrest) | Hq]; rewrite Hq; [|by left].
  right. cbn [mbind result_bind].
  destruct (QuerySet.filter_ (organisation_only organisations)
              (LinkAggregate_objects db)) as [|r rs] eqn:Ho.
  - left. split; [eauto|]. split; [done|].
    pose proof (filter__within _ _ _ _ Hrest Ho) as Hnil.
    unfold _fill_chart_context. unfold organisation_only in Ho.
    by rewrite Hnil, Ho.
  - right. split; [eauto|]. split; [done|].
    assert (∃ d, earliest_link_date_lookup organisations q db = Ok d)
      as [d Hd].
    { destruct (QuerySet.filter_ q (LinkAggregate_objects db))
        as [|r1 rs1] eqn:Hsel.
      - destruct (earliest_Ok (r :: rs)) as (m & _ & Hm); [done|].
        exists (full_date m).
        apply earliest_link_date_fallback; [done|]. by rewrite Ho.
      - destruct (earliest_Ok (r1 :: rs1)) as (m & _ & Hm); [done|].
        exists (full_date m).
        apply earliest_link_date_filtered. by rewrite Hsel. }
    rewrite (fill_chart_context_found _ _ _ _ _ Hd). simpl. eauto.
Qed.

Lemma statistics_keys_set context1 q db k :
  k ∈ statistics_keys →
  is_Some (context1 !! "eventstream_dates") →
  is_Some (context1 !! "eventstream_net_change") →
  is_Some (_fill_totals_tables
             (_fill_statistics_table_context context1 q db) q db !! k).
Proof.
  intros Hk Hd Hn.
  unfold _fill_totals_tables, _fill_statistics_table_context.
  unfold statistics_keys in Hk.
  repeat (apply elem_of_cons in Hk as [-> | Hk]);
    [..|by apply elem_of_nil in Hk];
    rewrite ?lookup_insert_ne by done; rewrite ?lookup_insert_eq; eauto.
Qed.

Lemma statistics_keys_frame context1 q db k :
  k ∉ ["total_added"; "total_removed"; "total_diff";
       "total_editors"; "total_projects";
       "top_organisations"; "top_projects"; "top_users"] →
  _fill_totals_tables (_fill_statistics_table_context context1 q db) q db !! k
  = context1 !! k.
Proof.
  intros Hk. unfold _fill_totals_tables, _fill_statistics_table_context.
  rewrite !lookup_insert_ne; [done|..]; intros <-; apply Hk;
    repeat constructor.
Qed.

Lemma build_context_dictionary_inv organisations context form_data db context' :
  _build_context_dictionary organisations context form_data db = Ok context' →
  ∃ q dates nets,
    resolved_filter organisations form_data = Ok q ∧
    context'
    = _fill_totals_tables
        (_fill_statistics_table_context
           (<["eventstream_net_change" := VIntList nets]>
              (<["eventstream_dates" := VStrList dates]> context)) q db) q db.
Proof.
  rewrite build_context_dictionary_steps.
  destruct (resolved_filter organisations form_data) as [q|e]; [|done].
  cbn [mbind result_bind].
  destruct (_fill_chart_context organisations context q db)
    as [context1|e] eqn:Hc; [|done].
  intros [= <-].
  apply fill_chart_context_inv in Hc as (dates & nets & ->). eauto.
Qed.

Lemma build_context_dictionary_keys organisations context form_data db context' :
  _build_context_dictionary organisations context form_data db = Ok context' →
  (∀ k, k ∈ statistics_keys → is_Some (context' !! k)) ∧
  (∀ k, k ∉ statistics_keys → context' !! k = context !! k).
Proof.
  intros (q & dates & nets & _ & ->)%build_context_dictionary_inv. split.
  - intros k Hk. apply statistics_keys_set; [done|..].
    + rewrite lookup_insert_ne by done. rewrite lookup_insert_eq. eauto.
    + rewrite lookup_insert_eq. eauto.
  - intros k Hk. rewrite statistics_keys_frame.
    + rewrite !lookup_insert_ne; [done|..]; intros <-; apply Hk;
        unfold statistics_keys; repeat constructor.
    + intros Hin. apply Hk. unfold statistics_keys. by do 2 right.
Qed.

(** X6: a successful [_build_context_dictionary] sets the ten entries of
    the chart, the statistics table and the totals tables, and leaves
    every other entry of the incoming context as it was. *)
Theorem build_context_dictionary_writes_ten_keys
    organisations context form_data db context' :
  _build_context_dictionary organisations context form_data db = Ok context' →
  (∀ k, k ∈ statistics_keys → is_Some (context' !! k)) ∧
  (∀ k, k ∉ statistics_keys → context' !! k = context !! k).
Proof. apply build_context_dictionary_keys. Qed.

(** X7: a successful [get_context_data] hands the template the program's
    organisations, the form and the raw query string unchanged next to
    the ten computed entries (no step overwrites what another wrote), and
    keeps every other entry the parent class supplied. *)
Theorem get_context_data_entries
    context organisation_set form_is_valid cleaned_data QUERY_STRING db
    context' :
  get_context_data context organisation_set form_is_valid cleaned_data
    QUERY_STRING db = Ok context' →
  context' !! "organisations" = Some (VOrganisations organisation_set) ∧
  context' !! "form" = Some (VForm form_is_valid cleaned_data) ∧
  context' !! "query_string" = Some (VStr QUERY_STRING) ∧
  (∀ k, k ∈ statistics_keys → is_Some (context' !! k)) ∧
  (∀ k, k ∉ "organisations" :: "form" :: "query_string" :: statistics_keys →
        context' !! k = context !! k).
Proof.
  unfold get_context_data.
  destruct (_build_context_dictionary _ _ _ _) as [context1|e] eqn:Hb; [|done].
  cbn [mbind result_bind]. intros [= <-].
  apply build_context_dictionary_keys in Hb as [Hset Hframe].
  assert ("organisations" ∉ statistics_keys) as Ho
    by (apply (bool_decide_unpack _); vm_compute; exact I).
  assert ("form" ∉ statistics_keys) as Hf
    by (apply (bool_decide_unpack _); vm_compute; exact I).
  assert ("query_string" ∉ statistics_keys) as Hq
    by (apply (bool_decide_unpack _); vm_compute; exact I).
  split_and!.
  - rewrite lookup_insert_ne by done. rewrite Hframe by done.
    rewrite lookup_insert_ne by done. by rewrite lookup_insert_eq.
  - rewrite lookup_insert_ne by done. rewrite Hframe by done.
    by rewrite lookup_insert_eq.
  - by rewrite lookup_insert_eq.
  - intros k Hk. rewrite lookup_insert_ne; [by apply Hset|].
    by intros <-.
  - intros k Hk.
    rewrite lookup_insert_ne by (intros <-; apply Hk; repeat constructor).
    rewrite Hframe by (intros Hin; apply Hk; by do 3 right).
    rewrite !lookup_insert_ne; [done|..]; intros <-; apply Hk;
      repeat constructor.
Qed.
End context_more.

(** ** The totals tables, row by row *)

Section totals_more.
Implicit Types context : gmap string value.

Lemma annotate_totals_rows `{Aggregate A} `{EqDecision K}
    (key : A → K) (rows : list A) :
  Forall (λ g, links_diff g = links_added g - links_removed g)
         (annotate_totals key rows) ∧
  NoDup (group_key <$> annotate_totals key rows) ∧
  length (annotate_totals key rows) = length (remove_dups (key <$> rows)).
Proof.
  split; [|split].
  - unfold annotate_totals. apply Forall_fmap, Forall_forall. by intros g _.
  - apply annotate_totals_grouped.
  - unfold annotate_totals, QuerySet.values. by rewrite !length_fmap.
Qed.

Lemma order_by_Permutation {K} (groups : list (totals_row K)) :
  order_by groups ≡ₚ groups.
Proof. apply merge_sort_Permutation. Qed.

(** What cutting the ranking to five keeps. *)
Lemma top5_rows `{Aggregate A} `{EqDecision K} (key : A → K) (rows : list A) :
  Forall (λ g, links_diff g = links_added g - links_removed g)
         (take 5 (order_by (annotate_totals key rows))) ∧
  NoDup (group_key <$> take 5 (order_by (annotate_totals key rows))).
Proof.
  destruct (annotate_totals_rows key rows) as (Hrows & Hnd & _). split.
  - apply Forall_take. by rewrite order_by_Permutation.
  - rewrite fmap_take.
    eapply sublist_NoDup; [|apply sublist_take].
    by rewrite order_by_Permutation.
Qed.

Lemma top5_keeps_best {K} (groups : list (totals_row K)) :
  keeps_best groups (take 5 (order_by groups)).
Proof.
  intros g t Hg Hcut Ht.
  pose proof (StronglySorted_merge_sort ranks_before groups) as Hsorted.
  fold (order_by groups) in Hsorted.
  rewrite <- (order_by_Permutation groups) in Hg.
  rewrite <- (take_drop 5 (order_by groups)) in Hg, Hsorted.
  apply elem_of_app in Hg as [Hg | Hg]; [done|].
  eapply StronglySorted_app_1_elem_of; eauto.
Qed.

Lemma top5_all {K} (groups : list (totals_row K)) :
  (length groups ≤ 5)%nat → take 5 (order_by groups) ≡ₚ groups.
Proof.
  intros Hlen. rewrite take_ge; [apply order_by_Permutation|].
  by rewrite order_by_Permutation.
Qed.

(** X8: in each of the three tables every row's [links_diff] is its
    [links_added] minus its [links_removed], and no organisation, project
    or user is listed twice. *)
Theorem fill_totals_tables_rows context queryset_filter db :
  ∃ (top_organisations : list (totals_row (Z * string)))
    (top_projects top_users : list (totals_row string)),
    _fill_totals_tables context queryset_filter db !! "top_organisations"
      = Some (VOrganisationTotals top_organisations) ∧
    _fill_totals_tables context queryset_filter db !! "top_projects"
      = Some (VNameTotals top_projects) ∧
    _fill_totals_tables context queryset_filter db !! "top_users"
      = Some (VNameTotals top_users) ∧
    Forall (λ g, links_diff g = links_added g - links_removed g)
           top_organisations ∧
    Forall (λ g, links_diff g = links_added g - links_removed g)
           top_projects ∧
    Forall (λ g, links_diff g = links_added g - links_removed g) top_users ∧
    NoDup (group_key <$> top_organisations) ∧
    NoDup (group_key <$> top_projects) ∧
    NoDup (group_key <$> top_users).
Proof.
  eexists _, _, _. unfold _fill_totals_tables.
  split_and!;
    try (rewrite ?lookup_insert_ne by done; apply lookup_insert_eq);
    apply top5_rows.
Qed.

(** X9: cutting a table to five rows drops only rows that rank no higher
    than any row kept: in each of the three tables every row listed may
    stand before every group left out. *)
Theorem fill_totals_tables_keeps_best context queryset_filter db :
  ∃ (organisation_groups top_organisations : list (totals_row (Z * string)))
    (project_groups top_projects user_groups top_users
       : list (totals_row string)),
    _fill_totals_tables context queryset_filter db !! "top_organisations"
      = Some (VOrganisationTotals top_organisations) ∧
    _fill_totals_tables context queryset_filter db !! "top_projects"
      = Some (VNameTotals top_projects) ∧
    _fill_totals_tables context queryset_filter db !! "top_users"
      = Some (VNameTotals top_users) ∧
    grouped_totals organisation_key
      (QuerySet.filter_ queryset_filter (LinkAggregate_objects db))
      organisation_groups ∧
    grouped_totals project_name
      (QuerySet.filter_ queryset_filter (PageProjectAggregate_objects db))
      project_groups ∧
    grouped_totals username
      (QuerySet.filter_ queryset_filter (UserAggregate_objects db))
      user_groups ∧
    keeps_best organisation_groups top_organisations ∧
    keeps_best project_groups top_projects ∧
    keeps_best user_groups top_users.
Proof.
  eexists _, _, _, _, _, _. unfold _fill_totals_tables.
  split_and!;
    try (rewrite ?lookup_insert_ne by done; apply lookup_insert_eq);
    try apply annotate_totals_grouped;
    apply top5_keeps_best.
Qed.

Lemma annotate_totals_sums `{Aggregate A} `{EqDecision K}
    (key : A → K) (rows : list A) :
  sum_Z (links_added <$> annotate_totals key rows)
  = sum_Z (total_links_added <$> rows) ∧
  sum_Z (links_removed <$> annotate_totals key rows)
  = sum_Z (total_links_removed <$> rows) ∧
  sum_Z (links_diff <$> annotate_totals key rows)
  = sum_Z (total_links_added <$> rows) - sum_Z (total_links_removed <$> rows).
Proof.
  unfold annotate_totals. rewrite <- !list_fmap_compose.
  split; [|split].
  - apply (values_group_sum key total_links_added).
  - apply (values_group_sum key total_links_removed).
  - rewrite <- (values_group_sum key total_links_added).
    rewrite <- (values_group_sum key total_links_removed).
    rewrite <- sum_Z_fmap_sub. done.
Qed.

Lemma annotate_totals_lists_key `{Aggregate A} `{EqDecision K}
    (key : A → K) (rows : list A) (r : A) :
  r ∈ rows → ∃ g, g ∈ annotate_totals key rows ∧ group_key g = key r.
Proof.
  intros Hr. unfold annotate_totals, QuerySet.values.
  eexists. split.
  - apply list_elem_of_fmap_2, list_elem_of_fmap_2.
    rewrite elem_of_remove_dups. by apply list_elem_of_fmap_2.
  - done.
Qed.

(** X10: when LinkAggregate rows match the predicate and carry at most
    five distinct organisations, the organisations table lists every one
    of them and its columns add up to the totals of the statistics
    table: the sums of [links_added], [links_removed] and [links_diff]
    over the table are [total_added], [total_removed] and
    [total_diff]. *)
Theorem top_organisations_account_for_totals context q db :
  QuerySet.filter_ q (LinkAggregate_objects db) ≠ [] →
  (length (remove_dups
             (organisation_key
                <$> QuerySet.filter_ q (LinkAggregate_objects db))) ≤ 5)%nat →
  ∃ top,
    _fill_totals_tables context q db !! "top_organisations"
      = Some (VOrganisationTotals top) ∧
    (∀ r, r ∈ QuerySet.filter_ q (LinkAggregate_objects db) →
          ∃ g, g ∈ top ∧ group_key g = organisation_key r) ∧
    _fill_statistics_table_context context q db !! "total_added"
      = Some (VInt (sum_Z (links_added <$> top))) ∧
    _fill_statistics_table_context context q db !! "total_removed"
      = Some (VInt (sum_Z (links_removed <$> top))) ∧
    _fill_statistics_table_context context q db !! "total_diff"
      = Some (VInt (sum_Z (links_diff <$> top))).
Proof.
  intros Hne Hlen.
  set (matching := QuerySet.filter_ q (LinkAggregate_objects db)) in *.
  set (groups := annotate_totals organisation_key matching).
  assert (take 5 (order_by groups) ≡ₚ groups) as Hall.
  { apply top5_all. unfold groups.
    destruct (annotate_totals_rows organisation_key matching) as (_ & _ & ->).
    done. }
  destruct (annotate_totals_sums organisation_key matching)
    as (Ha & Hr & Hd).
  exists (take 5 (order_by groups)). split_and!.
  - unfold _fill_totals_tables.
    rewrite !lookup_insert_ne by done. apply lookup_insert_eq.
  - intros r Hr'.
    destruct (annotate_totals_lists_key organisation_key matching r Hr')
      as (g & Hg & Hkey).
    exists g. split; [|done]. by rewrite Hall.
  - unfold _fill_statistics_table_context. fold matching.
    rewrite !lookup_insert_ne by done. rewrite lookup_insert_eq.
    rewrite (Sum_nonempty _ _ Hne).
    rewrite (sum_Z_Permutation _ _ (fmap_Permutation links_added _ _ Hall)).
    fold groups in Ha. by rewrite Ha.
  - unfold _fill_statistics_table_context. fold matching.
    rewrite !lookup_insert_ne by done. rewrite lookup_insert_eq.
    rewrite (Sum_nonempty _ _ Hne).
    rewrite (sum_Z_Permutation _ _ (fmap_Permutation links_removed _ _ Hall)).
    fold groups in Hr. by rewrite Hr.
  - unfold _fill_statistics_table_context. fold matching.
    rewrite !lookup_insert_ne by done. rewrite lookup_insert_eq.
    rewrite !(Sum_nonempty _ _ Hne).
    rewrite (sum_Z_Permutation _ _ (fmap_Permutation links_diff _ _ Hall)).
    fold groups in Hd. by rewrite Hd.
Qed.

(** X11: in the context [_build_context_dictionary] returns, every row of
    the organisations table stands for an organisation of the program. *)
Theorem top_organisations_belong_to_program
    organisations context form_data db context' :
  _build_context_dictionary organisations context form_data db = Ok context' →
  ∃ top,
    context' !! "top_organisations" = Some (VOrganisationTotals top) ∧
    ∀ g, g ∈ top → (group_key g).1 ∈ org_pk <$> organisations.
Proof.
  intros (q & dates & nets & Hq & ->)%build_context_dictionary_inv.
  destruct (resolved_filter_cases organisations form_data)
    as [(q' & rest & Hq' & Hrest) | Hq']; [|congruence].
  assert (q' = q) as -> by congruence.
  eexists. split.
  - unfold _fill_totals_tables.
    rewrite !lookup_insert_ne by done. apply lookup_insert_eq.
  - intros g Hg.
    pose proof (elem_of_sublist _ _ _ Hg (sublist_take _ _)) as Hg'.
    rewrite order_by_Permutation in Hg'. clear Hg. rename Hg' into Hg.
    apply annotate_totals_grouped in Hg as (members & -> & Hne & _).
    apply filter_nonempty in Hne as (r & Hr & Hkey).
    rewrite <- Hkey. simpl.
    apply elem_of_filter_ in Hr as [Hr _].
    destruct q as [ch]. simpl in Hrest. subst ch.
    unfold QuerySet.matches in Hr. simpl in Hr.
    apply andb_true_iff in Hr as [Hr _].
    by apply bool_decide_eq_true in Hr.
Qed.
End totals_more.

(** ** Distinct counts *)

Section counts_more.
Implicit Types context : gmap string value.

Lemma length_remove_dups_le {B} `{EqDecision B} (l : list B) :
  (length (remove_dups l) ≤ length l)%nat.
Proof.
  induction l as [|x l IH]; simpl; [done|].
  destruct (decide_rel elem_of x l); simpl; lia.
Qed.

Lemma remove_dups_nil_iff {B} `{EqDecision B} (l : list B) :
  remove_dups l = [] ↔ l = [].
Proof.
  split; [|by intros ->].
  destruct l as [|x l]; [done|]. intros Hnil.
  assert (x ∈ remove_dups (x :: l)) as Hx
    by (rewrite elem_of_remove_dups; left).
  rewrite Hnil in Hx. by apply elem_of_nil in Hx.
Qed.

Lemma Count_distinct_bounds `{Aggregate A} `{EqDecision K}
    (f : A → K) (rows : list A) :
  0 ≤ QuerySet.Count_distinct f rows ≤ Z.of_nat (length rows) ∧
  (QuerySet.Count_distinct f rows = 0 ↔ rows = []).
Proof.
  unfold QuerySet.Count_distinct.
  pose proof (length_remove_dups_le (f <$> rows)) as Hle.
  rewrite length_fmap in Hle. split; [lia|]. split.
  - intros Hz.
    assert (remove_dups (f <$> rows) = []) as Hnil
      by (apply nil_length_inv; lia).
    rewrite remove_dups_nil_iff in Hnil. by apply fmap_nil_inv in Hnil.
  - by intros ->.
Qed.

(** X12: [total_editors] and [total_projects] are numbers between 0 and
    the number of matching UserAggregate, respectively
    PageProjectAggregate, rows, and each is 0 exactly when no row of its
    table matches the predicate. *)
Theorem fill_statistics_table_context_counts context q db :
  ∃ editors projects : Z,
    _fill_statistics_table_context context q db !! "total_editors"
      = Some (VInt editors) ∧
    _fill_statistics_table_context context q db !! "total_projects"
      = Some (VInt projects) ∧
    0 ≤ editors
      ≤ Z.of_nat (length (QuerySet.filter_ q (UserAggregate_objects db))) ∧
    0 ≤ projects
      ≤ Z.of_nat
          (length (QuerySet.filter_ q (PageProjectAggregate_objects db))) ∧
    (editors = 0 ↔ QuerySet.filter_ q (UserAggregate_objects db) = []) ∧
    (projects = 0 ↔
     QuerySet.filter_ q (PageProjectAggregate_objects db) = []).
Proof.
  eexists _, _. unfold _fill_statistics_table_context.
  split_and!;
    try (rewrite ?lookup_insert_ne by done; apply lookup_insert_eq);
    apply Count_distinct_bounds.
Qed.
End counts_more.

(** ** The program list *)

Section program_list.

Lemma sum_Z_ones {B} (l : list B) :
  sum_Z ((λ _, 1) <$> l) = Z.of_nat (length l).
Proof.
  unfold sum_Z. induction l as [|x l IH]; [done|].
  rewrite fmap_cons. cbn [foldr length]. lia.
Qed.

Lemma get_context_data_no_organisation
    (context : gmap string value) form_is_valid cleaned_data QUERY_STRING db :
  ∃ e, get_context_data context [] form_is_valid cleaned_data QUERY_STRING db
       = Raise e.
Proof.
  unfold get_context_data. rewrite build_context_dictionary_steps.
  destruct (resolved_filter_cases []
              (if form_is_valid then Some cleaned_data else None))
    as [(q & rest & -> & Hrest) | ->]; [|simpl; eauto].
  destruct q as [ch]. simpl in Hrest. subst ch.
  cbn [mbind result_bind].
  rewrite fill_chart_context_no_organisation. simpl. eauto.
Qed.

(** X13: whatever order the rows come in, the program list holds every
    program exactly once, a program without organisation included, and
    when program keys are distinct the counts shown add up to the number
    of organisations that belong to a listed program: no organisation is
    counted twice or left out. *)
Theorem program_list_counts
    (programs : list Program) (organisations : list OrganisationRow) :
  NoDup (program_pk <$> programs) →
  (ProgramListView.get_queryset programs organisations).*1 ≡ₚ programs ∧
  sum_Z (ProgramListView.get_queryset programs organisations).*2
  = Z.of_nat
      (length (filter (λ o, row_program o ∈ program_pk <$> programs)
                 organisations)).
Proof.
  intros Hnd. unfold ProgramListView.get_queryset. split.
  - rewrite <- list_fmap_compose. by rewrite list_fmap_id.
  - rewrite <- list_fmap_compose.
    rewrite <- sum_Z_ones.
    rewrite <- (sum_by_key row_program (λ _, 1) organisations
                  (program_pk <$> programs) Hnd).
    rewrite <- list_fmap_compose. f_equal.
    apply list_fmap_ext. intros i p _. simpl. by rewrite sum_Z_ones.
Qed.

(** X14: a program the list shows with [organisation_count] 0 has no
    working detail page: [get_context_data] on its organisation set
    raises, whatever the form, the query string and the aggregate
    tables. *)
Theorem program_without_organisation_has_no_detail
    (programs : list Program) (organisations : list OrganisationRow)
    (p : Program) :
  (p, 0) ∈ ProgramListView.get_queryset programs organisations →
  ∀ (context : gmap string value) form_is_valid cleaned_data QUERY_STRING db,
    ∃ e, get_context_data context (organisation_set p organisations)
           form_is_valid cleaned_data QUERY_STRING db = Raise e.
Proof.
  unfold ProgramListView.get_queryset.
  intros (p' & [= -> Hz] & _)%list_elem_of_fmap.
  assert (organisation_set p' organisations = []) as ->.
  { unfold organisation_set.
    rewrite (nil_length_inv
               (filter (λ o, row_program o = program_pk p') organisations));
      [done | lia]. }
  intros. apply get_context_data_no_organisation.
Qed.
End program_list.

(** ** Narrowing by dates *)

Section narrowing.
Implicit Types context : gmap string value.
Implicit Types organisations : list Organisation.

Lemma filter__sublist `{Aggregate A} organisations (q : Q) rest (rows : list A) :
  children q = organisation__in organisations :: rest →
  QuerySet.filter_ q rows
    `sublist_of` QuerySet.filter_ (organisation_only organisations) rows.
Proof.
  intros Hq. destruct q as [ch]. simpl in Hq. subst ch.
  pose proof (filter__and (organisation_only organisations) rest rows) as Hsel.
  simpl in Hsel. rewrite Hsel. apply sublist_filter.
Qed.

Lemma sum_Z_sublist_le {B} (f : B → Z) (l1 l2 : list B) :
  l1 `sublist_of` l2 → Forall (λ x, 0 ≤ f x) l2 →
  sum_Z (f <$> l1) ≤ sum_Z (f <$> l2).
Proof.
  unfold sum_Z. induction 1 as [|x l1 l2 _ IH|x l1 l2 _ IH]; intros Hpos.
  - done.
  - apply Forall_cons in Hpos as [_ Hpos]. rewrite !fmap_cons.
    cbn [foldr]. specialize (IH Hpos). lia.
  - apply Forall_cons in Hpos as [Hx Hpos]. rewrite fmap_cons.
    cbn [foldr]. specialize (IH Hpos). lia.
Qed.

Lemma Count_distinct_sublist `{Aggregate A} (f : A → string) (l1 l2 : list A) :
  l1 `sublist_of` l2 →
  QuerySet.Count_distinct f l1 ≤ QuerySet.Count_distinct f l2.
Proof.
  intros Hsub. rewrite !Count_distinct_size.
  apply inj_le, subseteq_size. intros x.
  rewrite !elem_of_list_to_set, !list_elem_of_fmap.
  intros (r & -> & Hr). exists r. split; [done|].
  by eapply elem_of_sublist.
Qed.

(** X15: a date filter never raises the distinct counts: under the
    predicate the builder returns, [total_editors] and [total_projects]
    are at most what they are under the organisation-only predicate. *)
Theorem date_filter_lowers_counts
    (form_data : gmap string (option date)) organisations (q : Q) context db :
  _build_queryset_filters form_data organisations = Ok q →
  ∃ editors editors0 projects projects0 : Z,
    _fill_statistics_table_context context q db !! "total_editors"
      = Some (VInt editors) ∧
    _fill_statistics_table_context context (organisation_only organisations)
      db !! "total_editors" = Some (VInt editors0) ∧
    _fill_statistics_table_context context q db !! "total_projects"
      = Some (VInt projects) ∧
    _fill_statistics_table_context context (organisation_only organisations)
      db !! "total_projects" = Some (VInt projects0) ∧
    editors ≤ editors0 ∧ projects ≤ projects0.
Proof.
  intros [rest Hq]%build_queryset_filters_head.
  eexists _, _, _, _. unfold _fill_statistics_table_context.
  split_and!;
    try (rewrite ?lookup_insert_ne by done; apply lookup_insert_eq);
    eapply Count_distinct_sublist, filter__sublist, Hq.
Qed.

(** X16: when no LinkAggregate row carries a negative count, a date
    filter never raises the link totals: a [total_added] or
    [total_removed] computed under the predicate the builder returns is
    at most the one computed under the organisation-only predicate. *)
Theorem date_filter_lowers_totals
    (form_data : gmap string (option date)) organisations (q : Q) context db
    (added added0 removed removed0 : Z) :
  _build_queryset_filters form_data organisations = Ok q →
  Forall (λ r, 0 ≤ total_links_added r ∧ 0 ≤ total_links_removed r)
         (LinkAggregate_objects db) →
  _fill_statistics_table_context context q db !! "total_added"
    = Some (VInt added) →
  _fill_statistics_table_context context (organisation_only organisations) db
    !! "total_added" = Some (VInt added0) →
  _fill_statistics_table_context context q db !! "total_removed"
    = Some (VInt removed) →
  _fill_statistics_table_context context (organisation_only organisations) db
    !! "total_removed" = Some (VInt removed0) →
  added ≤ added0 ∧ removed ≤ removed0.
Proof.
  intros [rest Hq]%build_queryset_filters_head Hpos.
  pose proof (filter__sublist organisations q rest (LinkAggregate_objects db) Hq)
    as Hsub.
  assert (Forall (λ r : LinkAggregate,
                    0 ≤ total_links_added r ∧ 0 ≤ total_links_removed r)
            (QuerySet.filter_ (organisation_only organisations)
               (LinkAggregate_objects db))) as Hpos0.
  { apply Forall_forall. intros r [_ Hr]%elem_of_filter_.
    by apply (proj1 (Forall_forall _ _) Hpos). }
  unfold _fill_statistics_table_context.
  intros Ha Ha0 Hr Hr0.
  rewrite !lookup_insert_ne, lookup_insert_eq in Ha by done.
  rewrite !lookup_insert_ne, lookup_insert_eq in Ha0 by done.
  rewrite !lookup_insert_ne, lookup_insert_eq in Hr by done.
  rewrite !lookup_insert_ne, lookup_insert_eq in Hr0 by done.
  destruct (QuerySet.filter_ q (LinkAggregate_objects db)) as [|r rs] eqn:Hsel;
    [done|].
  destruct (QuerySet.filter_ (organisation_only organisations)
              (LinkAggregate_objects db)) as [|r0 rs0] eqn:Hsel0; [done|].
  rewrite (Sum_nonempty _ (r :: rs)) in Ha by done.
  rewrite (Sum_nonempty _ (r :: rs)) in Hr by done.
  rewrite (Sum_nonempty _ (r0 :: rs0)) in Ha0 by done.
  rewrite (Sum_nonempty _ (r0 :: rs0)) in Hr0 by done.
  cbn [py_int] in Ha, Ha0, Hr, Hr0.
  injection Ha as <-. injection Ha0 as <-.
  injection Hr as <-. injection Hr0 as <-. split.
  - refine (sum_Z_sublist_le total_links_added _ _ Hsub _).
    eapply Forall_impl; [exact Hpos0|]. by intros ? [? _].
  - refine (sum_Z_sublist_le total_links_removed _ _ Hsub _).
    eapply Forall_impl; [exact Hpos0|]. by intros ? [_ ?].
Qed.
End narrowing.

(** ** The further properties at the sample data *)

Section more_instances.
Import Sample SampleList.

(** The range form narrows the sample rows to those of the program. *)
Lemma build_queryset_filters_narrows_witness :
  QuerySet.filter_
    (Q_ [organisation__in [org_A]; full_date__gte jan_1; full_date__lte feb_1])
    links
  `sublist_of` QuerySet.filter_ (organisation_only [org_A]) links.
Proof.
  apply (build_queryset_filters_narrows range_form [org_A]
           (Q_ [organisation__in [org_A];
                full_date__gte jan_1; full_date__lte feb_1])
           LinkAggregate _ links).
  reflexivity.
Defined.

(** The sample chart adds up to the sample [total_diff], 80. *)
Lemma chart_net_changes_sum_to_total_diff_witness :
  ∃ context' nets,
    _fill_chart_context [org_A; org_B] ∅ (organisation_only [org_A; org_B]) db
    = Ok context' ∧
    context' !! "eventstream_net_change" = Some (VIntList nets) ∧
    sum_Z nets = 150 - 70 ∧
    _fill_statistics_table_context context' (organisation_only [org_A; org_B])
      db !! "total_diff" = Some (VInt (sum_Z nets)).
Proof.
  apply (chart_net_changes_sum_to_total_diff [org_A; org_B] ∅
           (organisation_only [org_A; org_B]) db).
  vm_compute. discriminate.
Defined.

(** The sample context has the ten entries and nothing else. *)
Lemma build_context_dictionary_writes_ten_keys_witness :
  ∃ context',
    _build_context_dictionary [org_A; org_B] ∅ None db = Ok context' ∧
    (∀ k, k ∈ statistics_keys → is_Some (context' !! k)) ∧
    (∀ k, k ∉ statistics_keys → context' !! k = (∅ : gmap string value) !! k).
Proof.
  destruct (_build_context_dictionary [org_A; org_B] ∅ None db)
    as [context'|e] eqn:Hb; [|vm_compute in Hb; discriminate].
  exists context'. split; [reflexivity|].
  exact (build_context_dictionary_writes_ten_keys _ _ _ _ _ Hb).
Defined.

(** The sample request with the inverted range. *)
Lemma get_context_data_entries_witness :
  ∃ context',
    get_context_data ∅ [org_A; org_B] true inverted_form
      "start_date=2024-02-01&end_date=2024-01-01" db = Ok context' ∧
    context' !! "organisations" = Some (VOrganisations [org_A; org_B]) ∧
    context' !! "form" = Some (VForm true inverted_form) ∧
    context' !! "query_string"
      = Some (VStr "start_date=2024-02-01&end_date=2024-01-01").
Proof.
  destruct (get_context_data ∅ [org_A; org_B] true inverted_form
              "start_date=2024-02-01&end_date=2024-01-01" db)
    as [context'|e] eqn:Hg; [|vm_compute in Hg; discriminate].
  exists context'. split; [reflexivity|].
  destruct (get_context_data_entries _ _ _ _ _ _ _ Hg)
    as (Ho & Hf & Hq & _).
  split; [exact Ho|]. split; [exact Hf | exact Hq].
Defined.

(** Two organisations fit the table: its columns add up to the totals. *)
Lemma top_organisations_account_for_totals_witness :
  ∃ top,
    _fill_totals_tables ∅ (organisation_only [org_A; org_B]) db
      !! "top_organisations" = Some (VOrganisationTotals top) ∧
    _fill_statistics_table_context ∅ (organisation_only [org_A; org_B]) db
      !! "total_added" = Some (VInt (sum_Z (links_added <$> top))).
Proof.
  destruct (top_organisations_account_for_totals ∅
              (organisation_only [org_A; org_B]) db)
    as (top & Htop & _ & Ha & _).
  - vm_compute. discriminate.
  - vm_compute. lia.
  - exists top. split; [exact Htop | exact Ha].
Defined.

(** The sample table lists organisations 1 and 2 only. *)
Lemma top_organisations_belong_to_program_witness :
  ∃ context' top,
    _build_context_dictionary [org_A; org_B] ∅ None db = Ok context' ∧
    context' !! "top_organisations" = Some (VOrganisationTotals top) ∧
    ∀ g, g ∈ top → (group_key g).1 ∈ org_pk <$> [org_A; org_B].
Proof.
  destruct (_build_context_dictionary [org_A; org_B] ∅ None db)
    as [context'|e] eqn:Hb; [|vm_compute in Hb; discriminate].
  destruct (top_organisations_belong_to_program _ _ _ _ _ Hb)
    as (top & Htop & Hin).
  exists context', top. split; [reflexivity|]. split; [exact Htop | exact Hin].
Defined.

(** Two programs, one of them without organisation. *)
Lemma program_list_counts_witness :
  NoDup (program_pk <$> programs) ∧
  (ProgramListView.get_queryset programs organisations).*1 ≡ₚ programs ∧
  sum_Z (ProgramListView.get_queryset programs organisations).*2 = 2.
Proof.
  assert (NoDup (program_pk <$> programs)) as Hnd
    by (apply (bool_decide_unpack _); vm_compute; exact I).
  split; [exact Hnd|].
  destruct (program_list_counts programs organisations Hnd)
    as (Hfst & Hsum).
  split; [exact Hfst|]. rewrite Hsum. reflexivity.
Defined.

(** The program listed with count 0 has no detail page. *)
Lemma program_without_organisation_has_no_detail_witness :
  (without_organisation, 0)
    ∈ ProgramListView.get_queryset programs organisations ∧
  ∃ e, get_context_data ∅ (organisation_set without_organisation organisations)
         false ∅ "page=1" db = Raise e.
Proof.
  assert ((without_organisation, 0)
            ∈ ProgramListView.get_queryset programs organisations) as Hin
    by (right; left).
  split; [exact Hin|].
  apply (program_without_organisation_has_no_detail
           programs organisations without_organisation Hin).
Defined.

(** January only against the whole of the sample data. *)
Lemma date_filter_lowers_counts_witness :
  ∃ editors editors0 : Z,
    _fill_statistics_table_context ∅
      (Q_ [organisation__in [org_A; org_B];
           full_date__gte (Date 2024 1 1); full_date__lte (Date 2024 1 31)])
      db !! "total_editors" = Some (VInt editors) ∧
    _fill_statistics_table_context ∅ (organisation_only [org_A; org_B]) db
      !! "total_editors" = Some (VInt editors0) ∧
    editors ≤ editors0.
Proof.
  destruct (date_filter_lowers_counts january_form [org_A; org_B]
              (Q_ [organisation__in [org_A; org_B];
                   full_date__gte (Date 2024 1 1);
                   full_date__lte (Date 2024 1 31)])
              ∅ db)
    as (e & e0 & _ & _ & He & He0 & _ & _ & Hle & _); [reflexivity|].
  exists e, e0. split; [exact He|]. split; [exact He0 | exact Hle].
Defined.

(** January holds 100 added and 10 removed of the 150 and 70 in all. *)
Lemma date_filter_lowers_totals_witness :
  _build_queryset_filters january_form [org_A; org_B]
  = Ok (Q_ [organisation__in [org_A; org_B];
            full_date__gte (Date 2024 1 1); full_date__lte (Date 2024 1 31)]) ∧
  100 ≤ 150 ∧ 10 ≤ 70.
Proof.
  split; [reflexivity|].
  apply (date_filter_lowers_totals january_form [org_A; org_B]
           (Q_ [organisation__in [org_A; org_B];
                full_date__gte (Date 2024 1 1);
                full_date__lte (Date 2024 1 31)])
           ∅ db 100 150 10 70).
  - reflexivity.
  - repeat constructor; vm_compute; discriminate.
  - vm_compute. reflexivity.
  - vm_compute. reflexivity.
  - vm_compute. reflexivity.
  - vm_compute. reflexivity.
Defined.
End more_instances.
